(** * ultrasequence: frame extraction, range compression, File and Sequence

    A shallow embedding of [ultrasequence/models.py] (with the parts of
    [config.py] it reads) and the properties of its sequence-detection
    engine.  Python values are carried as follows: [str] as [string], [int]
    as [Z], lengths as [nat], the [dict] of frames as a [gmap Z File.t],
    [None] as [option], raised exceptions as the [Raise] case of [result]. *)

From Stdlib Require Import ZArith QArith Ascii String Sorted.
From stdpp Require Import gmap strings list fin_maps pretty sorting.

Local Open Scope Z_scope.

(** ** Exceptions and results *)

(** The exceptions the modelled code raises, named by their Python class and
    the place that raises them. *)
Inductive exception : Type :=
  | ValueError_not_a_member          (* append: '%s is not a member of %s. Not appending.' *)
  | ValueError_cannot_sequence       (* append: '%s can not be sequenced.' *)
  | ValueError_empty_arg             (* min() / max() of an empty dict *)
  | IndexError_already_in_sequence   (* append: '%s already in sequence as %s' *)
  | IndexError_pop_empty             (* [].pop(0) *)
  | KeyError (key : string)          (* dict lookup of a missing key *)
  | AttributeError_readonly.         (* assignment to a field of os.stat_result *)

Inductive result (A : Type) : Type :=
  | Ok (a : A)
  | Raise (e : exception).
Arguments Ok {A} a.
Arguments Raise {A} e.

Global Instance result_ret : MRet result := λ A a, Ok a.
Global Instance result_bind : MBind result := λ A B k r,
  match r with
  | Ok a => k a
  | Raise e => Raise e
  end.

Definition raises {A} (r : result A) : Prop := ∃ e, r = Raise e.

(** ** The Python builtins the module uses *)

Module Py.

(** [c.isdigit()] on an ASCII character, the class [\d] of the frame
    pattern. *)
Definition is_digit (c : ascii) : bool :=
  match Ascii.is_nat c with Some _ => true | None => false end.

Definition digit_value (c : ascii) : Z :=
  match Ascii.is_nat c with Some d => Z.of_nat d | None => 0 end.

Fixpoint all_digits (s : string) : bool :=
  match s with
  | EmptyString => true
  | String c s' => is_digit c && all_digits s'
  end.

Fixpoint has_digit (s : string) : bool :=
  match s with
  | EmptyString => false
  | String c s' => is_digit c || has_digit s'
  end.

Fixpoint ends_with_digit (s : string) : bool :=
  match s with
  | EmptyString => false
  | String c EmptyString => is_digit c
  | String _ s' => ends_with_digit s'
  end.

Fixpoint int_digits (acc : Z) (s : string) : Z :=
  match s with
  | EmptyString => acc
  | String c s' => int_digits (10 * acc + digit_value c) s'
  end.

(** [int(s)] on the strings the module converts: a run of decimal digits
    gives its value, the empty string (and any string with another
    character) is a [ValueError], returned as [None]. *)
Definition int (s : string) : option Z :=
  match s with
  | EmptyString => None
  | _ => if all_digits s then Some (int_digits 0 s) else None
  end.

(** [str(n)] for an integer. *)
Definition str (n : Z) : string := pretty n.

(** [len(s)] *)
Definition len (s : string) : nat := String.length s.

(** [s.split(sep)] for a one-character separator. *)
Fixpoint split (sep : ascii) (s : string) : list string :=
  match s with
  | EmptyString => [EmptyString]
  | String c s' =>
      if Ascii.eqb c sep then EmptyString :: split sep s'
      else match split sep s' with
           | w :: ws => String c w :: ws
           | [] => [String c EmptyString]
           end
  end.

(** [sep.join(parts)] *)
Fixpoint join (sep : string) (parts : list string) : string :=
  match parts with
  | [] => EmptyString
  | [w] => w
  | w :: ws => w +:+ sep +:+ join sep ws
  end.

(** [c * n] for a one-character string [c]. *)
Fixpoint repeat_char (c : ascii) (n : nat) : string :=
  match n with
  | O => EmptyString
  | S n' => String c (repeat_char c n')
  end.

(** ['%%0%dd' % n] *)
Definition pct_0_d (n : nat) : string := "%0" +:+ pretty n +:+ "d".

Fixpoint all_sep (s : string) : bool :=
  match s with
  | EmptyString => true
  | String c s' => Ascii.eqb c "/" && all_sep s'
  end.

(** [s.rstrip('/')] *)
Fixpoint rstrip_sep (s : string) : string :=
  match s with
  | EmptyString => EmptyString
  | String c s' => if all_sep s then EmptyString else String c (rstrip_sep s')
  end.

(** [(p[:i], p[i:])] for [i = p.rfind('/') + 1]. *)
Fixpoint cut_last_sep (p : string) : string * string :=
  match p with
  | EmptyString => (EmptyString, EmptyString)
  | String c p' =>
      match cut_last_sep p' with
      | (EmptyString, t) =>
          if Ascii.eqb c "/" then (String c EmptyString, t)
          else (EmptyString, String c t)
      | (h, t) => (String c h, t)
      end
  end.

(** [os.path.split(p)] of posixpath. *)
Definition os_path_split (p : string) : string * string :=
  let '(head, tail) := cut_last_sep p in
  if negb (String.eqb head EmptyString) && negb (all_sep head)
  then (rstrip_sep head, tail)
  else (head, tail).

Definition starts_with_sep (s : string) : bool :=
  match s with
  | String c _ => Ascii.eqb c "/"
  | EmptyString => false
  end.

Fixpoint ends_with_sep (s : string) : bool :=
  match s with
  | EmptyString => false
  | String c EmptyString => Ascii.eqb c "/"
  | String _ s' => ends_with_sep s'
  end.

(** [os.path.join(a, b)] of posixpath. *)
Definition os_path_join (a b : string) : string :=
  if starts_with_sep b then b
  else if String.eqb a EmptyString || ends_with_sep a then a +:+ b
  else a +:+ "/" +:+ b.

(** [l[i]] for a list: a negative index counts from the end, and [None]
    is the [IndexError] of an index out of range. *)
Definition index {A} (l : list A) (i : Z) : option A :=
  if 0 <=? i then l !! Z.to_nat i
  else if 0 <=? Z.of_nat (length l) + i then l !! Z.to_nat (Z.of_nat (length l) + i)
  else None.


(** [s.lower()] on the ASCII letters. *)
Definition lower_char (c : ascii) : ascii :=
  let n := nat_of_ascii c in
  if (65 <=? n)%nat && (n <=? 90)%nat then ascii_of_nat (n + 32) else c.

Fixpoint lower (s : string) : string :=
  match s with
  | EmptyString => EmptyString
  | String c s' => String (lower_char c) (lower s')
  end.

End Py.

(** The exceptions of the comparisons, of the indexing and of the parser:
    those of [exception], and three more. *)
Inductive pyexc : Type :=
  | Raised (e : exception)
  | IndexError_list_index       (* list index out of range *)
  | ValueError_range_step       (* range() arg 3 must not be zero *)
  | TypeError_not_File.         (* '%s not File instance.' *)

Inductive outcome (A : Type) : Type :=
  | Return (a : A)
  | Throw (e : pyexc).
Arguments Return {A} a.
Arguments Throw {A} e.

(** ** config.py: the settings the models read *)

(** The groups of a successful [re.match(cfg.frame_extract_re, name)] that
    [extract_frame] reads through [cfg.head_group], [cfg.frame_group] and
    [cfg.tail_group].  A group that did not take part in the match is
    [None]. *)
Record frame_groups : Type := FrameGroups {
  head_group : option string;
  frame_group : string;
  tail_group : string;
}.

Module Config.
Record t : Type := {
  ignore_padding : bool;
  get_stats : bool;
  frame_extract_re : string → option frame_groups;
}.
End Config.

(** Modelled from the spec: what the frame pattern, which [config.py] under
    src/ does not define, finds in [name]: the last maximal run of digits,
    with the text before it and the text after it; [None] when [name] has no
    digit. *)
Fixpoint last_digit_run (name : string) : option (string * string * string) :=
  match name with
  | EmptyString => None
  | String c rest =>
      match last_digit_run rest with
      | Some (EmptyString, frame, tail) =>
          if Py.is_digit c then Some (EmptyString, String c frame, tail)
          else Some (String c EmptyString, frame, tail)
      | Some (head, frame, tail) => Some (String c head, frame, tail)
      | None =>
          if Py.is_digit c then Some (EmptyString, String c EmptyString, rest)
          else None
      end
  end.

(** Modelled from the spec: [config.py] under src/ defines neither
    [frame_extract_re] nor the three group indices.  Following section 4.1
    the pattern matches a name that has a digit, its frame group is the last
    maximal run of digits, its tail group the text after the run, and its
    head group the text before the run, absent when there is none. *)
Definition default_frame_extract_re (name : string) : option frame_groups :=
  match last_digit_run name with
  | Some (head, frame, tail) =>
      Some {| head_group := match head with
                            | EmptyString => None
                            | _ => Some head
                            end;
              frame_group := frame;
              tail_group := tail |}
  | None => None
  end.

(** [Config.default_config] : [ignore_padding] is 'true' and [get_stats] is
    'false'. *)
Definition cfg : Config.t := {|
  Config.ignore_padding := true;
  Config.get_stats := false;
  Config.frame_extract_re := default_frame_extract_re;
|}.

(** ** models.py: module functions *)

Definition extract_frame (cfg : Config.t) (name : string) : string * string * string :=
  let '(head, frame, tail) :=
    match Config.frame_extract_re cfg name with
    | Some groups => (head_group groups, frame_group groups, tail_group groups)
    | None => (Some name, EmptyString, EmptyString)
    end in
  let head := match head with
              | None => EmptyString
              | Some head => head
              end in
  (head, frame, tail).

Definition split_extension (filename : string) : string * string :=
  let parts := Py.split "." filename in
  if (length parts <? 2)%nat then (default EmptyString (parts !! 0%nat), EmptyString)
  else
    let ext := default EmptyString (last parts) in
    let parts := removelast parts in
    let head := Py.join "." parts in
    (head, ext).

(** ** models.py: [frame_ranges_to_string] *)

(** The arguments [frame_ranges_to_string] is written for: a [list], which
    Python passes by reference, another container such as a [tuple], a
    [range] or a [set], and a one-shot iterator with the items it has yet to
    yield. *)
Inductive iterable : Type :=
  | PyList (items : list Z)
  | PyTuple (items : list Z)
  | PyIterator (pending : list Z).

(** [bool(frame_list)]: a container is true when it has an item, an iterator
    object always. *)
Definition truth (frame_list : iterable) : bool :=
  match frame_list with
  | PyList items | PyTuple items => negb (bool_decide (items = []))
  | PyIterator _ => true
  end.

(** One round of the first loop: [x] joins the current range when it
    follows its last number, otherwise it opens a new range. *)
Definition ranges_step (st : list (list Z) * nat) (x : Z) : list (list Z) * nat :=
  let '(ranges, range_i) := st in
  if bool_decide ((ranges !! range_i) ≫= last = Some (x - 1))
  then (alter (λ r, r ++ [x]) range_i ranges, range_i)
  else (ranges ++ [[x]], S range_i).

(** One round of the second loop. *)
Definition range_to_string (x : list Z) : string :=
  if (1 <? length x)%nat
  then Py.join "-" [Py.str (default 0 (head x)); Py.str (default 0 (last x))]
  else Py.str (default 0 (head x)).

(** The function after its guard and its copy: [frame_list] is a non-empty
    list [first :: rest] of which [pop(0)] has taken [first]. *)
Definition ranges_to_string (first : Z) (rest : list Z) : string :=
  let ranges := [[first]] in
  let range_i := 0%nat in
  let '(ranges, _) := foldl ranges_step (ranges, range_i) rest in
  let list_of_ranges := range_to_string <$> ranges in
  "[" +:+ Py.join ", " list_of_ranges +:+ "]".

(** [list(frame_list)] for an argument that is no list: the new list, and
    the argument afterwards (an iterator has been read to its end). *)
Definition list_of (frame_list : iterable) : list Z * iterable :=
  match frame_list with
  | PyList items | PyTuple items => (items, frame_list)
  | PyIterator pending => (pending, PyIterator [])
  end.

(** The call returns its value, or raises, and leaves the caller's object
    in the state of the second component. *)
Definition frame_ranges_to_string (frame_list : iterable) : result string * iterable :=
  if negb (truth frame_list) then (Ok "[]", frame_list)
  else
    match frame_list with
    | PyList items =>
        (* the caller's list is used as it is: [pop(0)] acts on it *)
        match items with
        | first :: rest => (Ok (ranges_to_string first rest), PyList rest)
        | [] => (Raise IndexError_pop_empty, frame_list)
        end
    | _ =>
        (* [pop(0)] acts on the new list *)
        let '(items, frame_list) := list_of frame_list in
        match items with
        | first :: rest => (Ok (ranges_to_string first rest), frame_list)
        | [] => (Raise IndexError_pop_empty, frame_list)
        end
    end.

(** ** models.py: [Stat] *)

(** A number held in a stat field: an [int], or a [float] carried as a
    rational (only its being zero or not is ever looked at). *)
Inductive pynum : Type :=
  | PyInt (n : Z)
  | PyFloat (q : Q).

(** [bool(v)] of a stat field: [None], [0] and [0.0] are false. *)
Definition truthy (v : option pynum) : bool :=
  match v with
  | None => false
  | Some (PyInt n) => negb (n =? 0)
  | Some (PyFloat q) => negb (Qnum q =? 0)
  end.

Record Stat : Type := {
  st_size : option pynum;
  st_ino : option pynum;
  st_nlink : option pynum;
  st_dev : option pynum;
  st_mode : option pynum;
  st_uid : option pynum;
  st_gid : option pynum;
  st_ctime : option pynum;
  st_mtime : option pynum;
  st_atime : option pynum;
}.

(** [Stat.__init__], every parameter defaulting to [None]. *)
Definition Stat_init (size inode ctime mtime atime mode dev nlink uid gid : option pynum) : Stat :=
  {| st_size := size; st_ino := inode; st_nlink := nlink; st_dev := dev;
     st_mode := mode; st_uid := uid; st_gid := gid;
     st_ctime := ctime; st_mtime := mtime; st_atime := atime |}.

Definition Stat_params : list string :=
  ["size"; "inode"; "ctime"; "mtime"; "atime"; "mode"; "dev"; "nlink"; "uid"; "gid"].

(** [Stat( **stats )] : a key that is no parameter of [__init__] is a
    [TypeError], returned as [None]. *)
Definition Stat_of_dict (stats : gmap string (option pynum)) : option Stat :=
  if forallb (λ k, bool_decide (k ∈ Stat_params)) (map_to_list stats).*1
  then
    let arg k := mjoin (stats !! k) in
    Some (Stat_init (arg "size") (arg "inode") (arg "ctime") (arg "mtime")
            (arg "atime") (arg "mode") (arg "dev") (arg "nlink") (arg "uid")
            (arg "gid"))
  else None.

(** [Stat( *stats )] : more than ten items is a [TypeError], returned as
    [None]. *)
Definition Stat_of_seq (stats : list (option pynum)) : option Stat :=
  if (10 <? length stats)%nat then None
  else
    let arg i := mjoin (stats !! i) in
    Some (Stat_init (arg 0%nat) (arg 1%nat) (arg 2%nat) (arg 3%nat) (arg 4%nat)
            (arg 5%nat) (arg 6%nat) (arg 7%nat) (arg 8%nat) (arg 9%nat)).

(** What [File.stat] holds: the [os.stat_result] it was given, whose fields
    cannot be assigned, or a [Stat] object. *)
Inductive stat_holder : Type :=
  | OsStatResult (r : Stat)
  | StatObject (s : Stat).

Definition stat_fields (h : stat_holder) : Stat :=
  match h with OsStatResult r => r | StatObject s => s end.

(** The [stats] argument of [File]. *)
Inductive stats_arg : Type :=
  | StatsNone
  | StatsOsResult (r : Stat)
  | StatsDict (d : gmap string (option pynum))
  | StatsSeq (l : list (option pynum)).

(** ** models.py: [File] *)

Module File.

Record t : Type := {
  abspath : string;
  path : string;
  name : string;
  _base : string;
  ext : string;
  namehead : string;
  _framenum : string;
  head : string;
  tail : string;
  padding : nat;
  stat : stat_holder;
}.

Definition set_stat (self : t) (h : stat_holder) : t :=
  {| abspath := abspath self; path := path self; name := name self;
     _base := _base self; ext := ext self; namehead := namehead self;
     _framenum := _framenum self; head := head self; tail := tail self;
     padding := padding self; stat := h |}.

Section Filesystem.

(** [os.stat(path)]: the metadata of a file that exists, [None] for the
    [FileNotFoundError] of one that does not. *)
Variable os_stat : string → option Stat.

(** [File.__init__]: the object, and the configuration after the
    assignment to [cfg.get_stats]. *)
Definition init (cfg : Config.t) (filepath : string) (stats : stats_arg)
    (get_stats : option bool) : Config.t * t :=
  let cfg :=
    match get_stats with
    | Some b => {| Config.ignore_padding := Config.ignore_padding cfg;
                   Config.get_stats := b;
                   Config.frame_extract_re := Config.frame_extract_re cfg |}
    | None => cfg
    end in
  let '(path, name) := Py.os_path_split filepath in
  let '(_base, ext) := split_extension name in
  let parts := extract_frame cfg _base in
  let '(namehead, _framenum, tail) := parts in
  let head := Py.os_path_join path namehead in
  let tail :=
    if bool_decide (ext = EmptyString) then EmptyString
    else Py.join "." [tail; ext] in
  let padding := Py.len _framenum in
  (* the [try] block: [None] stands for the [TypeError] it catches *)
  let stats : option stats_arg :=
    if default false get_stats then
      match os_stat filepath with
      | Some r => Some (StatsOsResult r)
      | None => match stats with StatsNone => None | _ => Some stats end
      end
    else Some stats in
  let stat : option stat_holder :=
    match stats with
    | Some (StatsOsResult r) => Some (OsStatResult r)
    | Some (StatsDict d) => StatObject <$> Stat_of_dict d
    | Some (StatsSeq l) => StatObject <$> Stat_of_seq l
    | Some StatsNone | None => None
    end in
  let stat := default (StatObject (Stat_init None None None None None None
                                     None None None None)) stat in
  (cfg,
   {| abspath := filepath; path := path; name := name; _base := _base;
      ext := ext; namehead := namehead; _framenum := _framenum;
      head := head; tail := tail; padding := padding; stat := stat |}).

(** The body shared by the ten stat properties: [get] reads the field,
    [set] assigns it, and [ret] is the field returned after a lookup on
    disk.  The result is the value and the object afterwards. *)
Definition stat_property (get ret : Stat → option pynum)
    (set : option pynum → Stat → Stat) (self : t) : result (option pynum * t) :=
  if negb (truthy (get (stat_fields (stat self)))) then
    match os_stat (abspath self) with
    | Some on_disk =>
        match stat self with
        | StatObject s =>
            let s := set (get on_disk) s in
            Ok (ret s, set_stat self (StatObject s))
        | OsStatResult _ => Raise AttributeError_readonly
        end
    | None => Ok (None, self)
    end
  else Ok (get (stat_fields (stat self)), self).

Definition set_st_size v (s : Stat) : Stat :=
  {| st_size := v; st_ino := st_ino s; st_nlink := st_nlink s;
     st_dev := st_dev s; st_mode := st_mode s; st_uid := st_uid s;
     st_gid := st_gid s; st_ctime := st_ctime s; st_mtime := st_mtime s;
     st_atime := st_atime s |}.
Definition set_st_ino v (s : Stat) : Stat :=
  {| st_size := st_size s; st_ino := v; st_nlink := st_nlink s;
     st_dev := st_dev s; st_mode := st_mode s; st_uid := st_uid s;
     st_gid := st_gid s; st_ctime := st_ctime s; st_mtime := st_mtime s;
     st_atime := st_atime s |}.
Definition set_st_nlink v (s : Stat) : Stat :=
  {| st_size := st_size s; st_ino := st_ino s; st_nlink := v;
     st_dev := st_dev s; st_mode := st_mode s; st_uid := st_uid s;
     st_gid := st_gid s; st_ctime := st_ctime s; st_mtime := st_mtime s;
     st_atime := st_atime s |}.
Definition set_st_dev v (s : Stat) : Stat :=
  {| st_size := st_size s; st_ino := st_ino s; st_nlink := st_nlink s;
     st_dev := v; st_mode := st_mode s; st_uid := st_uid s;
     st_gid := st_gid s; st_ctime := st_ctime s; st_mtime := st_mtime s;
     st_atime := st_atime s |}.
Definition set_st_mode v (s : Stat) : Stat :=
  {| st_size := st_size s; st_ino := st_ino s; st_nlink := st_nlink s;
     st_dev := st_dev s; st_mode := v; st_uid := st_uid s;
     st_gid := st_gid s; st_ctime := st_ctime s; st_mtime := st_mtime s;
     st_atime := st_atime s |}.
Definition set_st_uid v (s : Stat) : Stat :=
  {| st_size := st_size s; st_ino := st_ino s; st_nlink := st_nlink s;
     st_dev := st_dev s; st_mode := st_mode s; st_uid := v;
     st_gid := st_gid s; st_ctime := st_ctime s; st_mtime := st_mtime s;
     st_atime := st_atime s |}.
Definition set_st_gid v (s : Stat) : Stat :=
  {| st_size := st_size s; st_ino := st_ino s; st_nlink := st_nlink s;
     st_dev := st_dev s; st_mode := st_mode s; st_uid := st_uid s;
     st_gid := v; st_ctime := st_ctime s; st_mtime := st_mtime s;
     st_atime := st_atime s |}.
Definition set_st_ctime v (s : Stat) : Stat :=
  {| st_size := st_size s; st_ino := st_ino s; st_nlink := st_nlink s;
     st_dev := st_dev s; st_mode := st_mode s; st_uid := st_uid s;
     st_gid := st_gid s; st_ctime := v; st_mtime := st_mtime s;
     st_atime := st_atime s |}.
Definition set_st_mtime v (s : Stat) : Stat :=
  {| st_size := st_size s; st_ino := st_ino s; st_nlink := st_nlink s;
     st_dev := st_dev s; st_mode := st_mode s; st_uid := st_uid s;
     st_gid := st_gid s; st_ctime := st_ctime s; st_mtime := v;
     st_atime := st_atime s |}.
Definition set_st_atime v (s : Stat) : Stat :=
  {| st_size := st_size s; st_ino := st_ino s; st_nlink := st_nlink s;
     st_dev := st_dev s; st_mode := st_mode s; st_uid := st_uid s;
     st_gid := st_gid s; st_ctime := st_ctime s; st_mtime := st_mtime s;
     st_atime := v |}.

Definition size := stat_property st_size st_size set_st_size.
Definition inode := stat_property st_ino st_ino set_st_ino.
Definition nlink := stat_property st_nlink st_nlink set_st_nlink.
Definition dev := stat_property st_dev st_dev set_st_dev.
Definition mode := stat_property st_mode st_mode set_st_mode.
(** [uid] assigns [st_uid] and returns [st_gid]. *)
Definition uid := stat_property st_uid st_gid set_st_uid.
Definition gid := stat_property st_gid st_gid set_st_gid.
Definition ctime := stat_property st_ctime st_ctime set_st_ctime.
Definition mtime := stat_property st_mtime st_mtime set_st_mtime.
Definition atime := stat_property st_atime st_atime set_st_atime.

End Filesystem.

(** The [frame] property: [None] when [int] raises [ValueError]. *)
Definition frame (self : t) : option Z := Py.int (_framenum self).

Definition frame_as_str (self : t) : string := _framenum self.

(** [get_seq_key]; an argument that is [None] falls back on
    [cfg.ignore_padding]. *)
Definition get_seq_key (cfg : Config.t) (self : t) (ignore_padding : option bool) : string :=
  let ignore_padding := default (Config.ignore_padding cfg) ignore_padding in
  let digits :=
    if bool_decide (_framenum self = EmptyString) then EmptyString
    else if ignore_padding then "#"
    else Py.pct_0_d (padding self) in
  head self +:+ digits +:+ tail self.

(** The right operand of a comparison: a [File], a [str], or an object of
    another type. *)
Inductive operand : Type :=
  | OfFile (other : t)
  | OfStr (other : string)
  | OfOther.

(** The test shared by [__lt__], [__gt__], [__le__] and [__ge__]: the other
    operand when it is a [File] of the same sequence key. *)
Definition same_key (cfg : Config.t) (self : t) (other : operand) : option t :=
  match other with
  | OfFile other =>
      if String.eqb (get_seq_key cfg self None) (get_seq_key cfg other None)
      then Some other else None
  | _ => None
  end.

Definition lt (cfg : Config.t) (self : t) (other : operand) : outcome bool :=
  match same_key cfg self other with
  | Some other => Return (String.ltb (frame_as_str self) (frame_as_str other))
  | None => Throw TypeError_not_File
  end.


Definition le (cfg : Config.t) (self : t) (other : operand) : outcome bool :=
  match same_key cfg self other with
  | Some other => Return (String.leb (frame_as_str self) (frame_as_str other))
  | None => Throw TypeError_not_File
  end.


Definition eq (self : t) (other : operand) : bool :=
  match other with
  | OfFile other => String.eqb (abspath self) (abspath other)
  | OfStr other => String.eqb (abspath self) other
  | OfOther => false
  end.

Definition ne (self : t) (other : operand) : bool :=
  match other with
  | OfFile other => negb (String.eqb (abspath self) (abspath other))
  | OfStr other => negb (String.eqb (abspath self) other)
  | OfOther => true
  end.

End File.

(** ** models.py: [Sequence] *)

(** What [append] is given: a [File] object or a file name. *)
Inductive file_arg : Type :=
  | AsFile (file : File.t)
  | AsStr (filename : string).

Module Sequence.

Record t : Type := {
  _frames : gmap Z File.t;
  seq_name : string;
  path : string;
  namehead : string;
  head : string;
  tail : string;
  ext : string;
  padding : nat;
  inconsistent_padding : bool;
}.

(** The fields [__init__] assigns before it appends. *)
Definition empty : t :=
  {| _frames := ∅; seq_name := ""; path := ""; namehead := ""; head := "";
     tail := ""; ext := ""; padding := 0; inconsistent_padding := false |}.

(** [len(self)], also the [frames] property. *)
Definition frames (self : t) : nat := size (_frames self).

(** The keys of the dict, as iterating over it yields them (their order is
    not that of Python, and nothing below depends on it). *)
Definition keys (self : t) : list Z := (map_to_list (_frames self)).*1.

(** [min(d)] and [max(d)] over the keys of a dict. *)
Definition py_min (ks : list Z) : result Z :=
  match ks with
  | [] => Raise ValueError_empty_arg
  | k :: ks => Ok (foldl Z.min k ks)
  end.

Definition py_max (ks : list Z) : result Z :=
  match ks with
  | [] => Raise ValueError_empty_arg
  | k :: ks => Ok (foldl Z.max k ks)
  end.

Definition start (self : t) : result Z := py_min (keys self).

Definition end_ (self : t) : result Z := py_max (keys self).

(** [sorted(self._frames)] *)
Definition frame_numbers (self : t) : list Z := merge_sort Z.le (keys self).

Definition implied_frames (self : t) : result Z :=
  e ← end_ self; s ← start self; Ok (e - s + 1).

Definition missing_frames (self : t) : result Z :=
  e ← end_ self; s ← start self; Ok (e - (s - 1) - Z.of_nat (frames self)).

Definition is_missing_frames (self : t) : result bool :=
  i ← implied_frames self;
  Ok (negb (bool_decide (Z.of_nat (frames self) = i))).

(** [self._frames[frame]] *)
Definition get_frame (self : t) (frame : Z) : result File.t :=
  match _frames self !! frame with
  | Some file => Ok file
  | None => Raise (KeyError (Py.str frame))
  end.

(** [range(start, end + 1)] filtered by [frame not in self._frames]. *)
Definition get_missing_frames (self : t) : result (list Z) :=
  s ← start self; e ← end_ self;
  let implied := seqZ s (e + 1 - s) in
  Ok (filter (λ frame, _frames self !! frame = None) implied).

(** The [File] that [append] goes on with.  A name is made a [File] with
    neither [stats] nor [get_stats], which reads no file metadata and
    leaves [cfg] alone. *)
Definition as_file (cfg : Config.t) (file : file_arg) : File.t :=
  match file with
  | AsFile file => file
  | AsStr filename => (File.init (λ _, None) cfg filename StatsNone None).2
  end.

(** The test under [isinstance(file, str)]: it is made of a name only,
    never of a [File] object. *)
Definition not_a_member (cfg : Config.t) (self : t) (file : file_arg) : bool :=
  match file with
  | AsFile _ => false
  | AsStr _ =>
      bool_decide (0 < size (_frames self))%nat
      && negb (String.eqb
                 (File.get_seq_key cfg (as_file cfg file)
                    (Some (Config.ignore_padding cfg)))
                 (seq_name self))
  end.

(** [append]: the sequence as the call leaves it, and whether the call
    returned or raised. *)
Definition append (cfg : Config.t) (self : t) (file : file_arg) : t * result unit :=
  let not_a_member := not_a_member cfg self file in
  let file := as_file cfg file in
  if not_a_member then (self, Raise ValueError_not_a_member)
  else
    match File.frame file with
    | None => (self, Raise ValueError_cannot_sequence)
    | Some frame =>
        let '(self, outcome) :=
          if bool_decide (frames self = 0%nat) then
            ({| _frames := _frames self;
                seq_name := File.get_seq_key cfg file (Some (Config.ignore_padding cfg));
                path := File.path file;
                namehead := File.namehead file;
                head := File.head file;
                tail := File.tail file;
                ext := File.ext file;
                padding := File.padding file;
                inconsistent_padding := inconsistent_padding self |}, Ok ())
          else if bool_decide (is_Some (_frames self !! frame)) then
            (self, Raise IndexError_already_in_sequence)
          else if bool_decide (padding self < File.padding file)%nat then
            ({| _frames := _frames self; seq_name := seq_name self;
                path := path self; namehead := namehead self;
                head := head self; tail := tail self; ext := ext self;
                padding := File.padding file;
                inconsistent_padding := true |}, Ok ())
          else (self, Ok ()) in
        match outcome with
        | Raise e => (self, Raise e)
        | Ok _ =>
            ({| _frames := <[frame := file]> (_frames self);
                seq_name := seq_name self; path := path self;
                namehead := namehead self; head := head self;
                tail := tail self; ext := ext self; padding := padding self;
                inconsistent_padding := inconsistent_padding self |}, Ok ())
        end
    end.

(** [Sequence.__init__]: the object, whether the call returned or raised,
    and the configuration after the assignment to [cfg.ignore_padding]. *)
Definition init (cfg : Config.t) (file : option file_arg)
    (ignore_padding : option bool) : Config.t * t * result unit :=
  let cfg :=
    match ignore_padding with
    | Some b => {| Config.ignore_padding := b;
                   Config.get_stats := Config.get_stats cfg;
                   Config.frame_extract_re := Config.frame_extract_re cfg |}
    | None => cfg
    end in
  match file with
  | Some file => let '(self, outcome) := append cfg empty file in (cfg, self, outcome)
  | None => (cfg, empty, Ok ())
  end.

(** The fourteen methods of [directive_mapper], by the character that
    follows the percent sign; another character is the [KeyError] of the
    lookup. *)
Definition directive (self : t) (char : ascii) : result string :=
  match char with
  | "%"%char => Ok "%"
  | "p"%char => Ok (path self)
  | "h"%char => Ok (namehead self)
  | "H"%char => Ok (head self)
  | "f"%char => Ok (Py.str (Z.of_nat (frames self)))
  | "r"%char =>
      s ← start self; first ← get_frame self s;
      e ← end_ self; last ← get_frame self e;
      Ok ("[" +:+ File.frame_as_str first +:+ "-" +:+ File.frame_as_str last +:+ "]")
  | "R"%char => (frame_ranges_to_string (PyList (frame_numbers self))).1
  | "m"%char => m ← missing_frames self; Ok (Py.str m)
  | "M"%char =>
      missing ← get_missing_frames self;
      (frame_ranges_to_string (PyList missing)).1
  | "D"%char => Ok (Py.repeat_char "#" (padding self))
  | "P"%char => Ok (Py.pct_0_d (padding self))
  | "t"%char => Ok (Py.join "." (removelast (Py.split "." (tail self))))
  | "T"%char => Ok (tail self)
  | "e"%char => Ok (ext self)
  | _ => Raise (KeyError (String "%" (String char "")))
  end.

(** The loop of [format] over the characters of the template, with its
    two variables [new_string] and [matched]. *)
Fixpoint format_loop (self : t) (format : string) (new_string : string)
    (matched : bool) : result string :=
  match format with
  | EmptyString => Ok new_string
  | String char format =>
      if matched then
        part ← directive self char;
        format_loop self format (new_string +:+ part) false
      else if Ascii.eqb char "%" then format_loop self format new_string true
      else format_loop self format (new_string +:+ String char "") false
  end.

Definition format (self : t) (format : string) : result string :=
  format_loop self format "" false.


(** [self[frames]] for an integer [frames]. *)
Definition getitem (self : t) (frames : Z) : outcome File.t :=
  let all_frames := frame_numbers self in
  match Py.index all_frames frames with
  | None => Throw IndexError_list_index
  | Some frame =>
      match get_frame self frame with
      | Ok file => Return file
      | Raise e => Throw (Raised e)
      end
  end.



End Sequence.

(** ** Runs of consecutive integers *)

(** Each number of [r] is followed by its successor. *)
Fixpoint consecutive (r : list Z) : Prop :=
  match r with
  | x :: (y :: _) as r' => y = x + 1 ∧ consecutive r'
  | _ => True
  end.

(** No run of [rs] is continued by the run after it. *)
Fixpoint separated (rs : list (list Z)) : Prop :=
  match rs with
  | r1 :: (r2 :: _) as rs' =>
      (∀ x y, last r1 = Some x → head r2 = Some y → y ≠ x + 1) ∧ separated rs'
  | _ => True
  end.

(** [runs] cuts [l] into its maximal runs of consecutive integers. *)
Definition maximal_runs (runs : list (list Z)) (l : list Z) : Prop :=
  concat runs = l
  ∧ Forall (λ r, r ≠ [] ∧ consecutive r) runs
  ∧ separated runs.

(** A run as the contract of the range compressor writes it: a lone number,
    or its two ends with a dash. *)
Definition run_string (r : list Z) : string :=
  match r with
  | [] => ""
  | [x] => Py.str x
  | x :: _ => Py.str x +:+ "-" +:+ Py.str (default x (last r))
  end.

(** The ranges the first loop has built once it has read [xs], [cur] being
    the range it was filling. *)
Fixpoint runs_from (cur : list Z) (xs : list Z) : list (list Z) :=
  match xs with
  | [] => [cur]
  | x :: xs =>
      if bool_decide (last cur = Some (x - 1)) then runs_from (cur ++ [x]) xs
      else cur :: runs_from [x] xs
  end.

(** ** Runs of appends *)

(** The files of [files] appended one after the other; the first exception
    ends the run. *)
Fixpoint appends (cfg : Config.t) (self : Sequence.t) (files : list file_arg) :
    Sequence.t * result unit :=
  match files with
  | [] => (self, Ok ())
  | file :: files =>
      match Sequence.append cfg self file with
      | (self, Ok _) => appends cfg self files
      | (self, Raise e) => (self, Raise e)
      end
  end.

(** The sequence of the five frames 10, 11, 14, 15 and 20 of one shot. *)
Definition shot_10_20 : Sequence.t * result unit :=
  appends cfg Sequence.empty
    (AsStr <$> ["/r/shot.0010.exr"; "/r/shot.0011.exr"; "/r/shot.0014.exr";
                "/r/shot.0015.exr"; "/r/shot.0020.exr"]).

(** The greatest padding among [files], 0 when there is none. *)
Fixpoint max_padding (cfg : Config.t) (files : list file_arg) : nat :=
  match files with
  | [] => 0%nat
  | file :: files =>
      (File.padding (Sequence.as_file cfg file) `max` max_padding cfg files)%nat
  end.

(** ** The directives of a template *)

(** The characters of [format] that the loop of [Sequence.format] reads as
    directives: each one that follows a percent sign which is not itself
    read as a directive. *)
Fixpoint directives_from (format : string) (matched : bool) : list ascii :=
  match format with
  | EmptyString => []
  | String char format =>
      if matched then char :: directives_from format false
      else if Ascii.eqb char "%" then directives_from format true
      else directives_from format false
  end.

Definition directives (format : string) : list ascii := directives_from format false.

(** ** Two files of different sequences *)

(** The sequence made of the one frame [/r/shot.0010.exr]. *)
Definition shot_0010 : Sequence.t :=
  (Sequence.append cfg Sequence.empty (AsStr "/r/shot.0010.exr")).1.

(** [File('/b/other.0002.jpg')] and [File('/b/other.0010.jpg')] *)
Definition other_0002 : File.t :=
  (File.init (λ _, None) cfg "/b/other.0002.jpg" StatsNone None).2.

Definition other_0010 : File.t :=
  (File.init (λ _, None) cfg "/b/other.0010.jpg" StatsNone None).2.

(** ** Files for the examples *)

(** No file exists. *)
Definition no_file : string → option Stat := λ _, None.

(** Every file exists, with 7 in each integer field and 1.5 in each
    time. *)
Definition on_disk : string → option Stat := λ _,
  Some (Stat_init (Some (PyInt 7)) (Some (PyInt 7)) (Some (PyFloat (3 # 2)))
          (Some (PyFloat (3 # 2))) (Some (PyFloat (3 # 2))) (Some (PyInt 7))
          (Some (PyInt 7)) (Some (PyInt 7)) (Some (PyInt 7)) (Some (PyInt 7))).

(** [File('/p/shot0001final')], a name without a dot. *)
Definition shot0001final : File.t :=
  (File.init no_file cfg "/p/shot0001final" StatsNone None).2.

(** [File('/r/shot.0010.exr', stats={'size': 0, 'uid': 0, 'mode': 33188})] *)
Definition shot_size_0 : File.t :=
  (File.init no_file cfg "/r/shot.0010.exr"
     (StatsDict {[ "size" := Some (PyInt 0); "uid" := Some (PyInt 0);
                   "mode" := Some (PyInt 33188) ]}) None).2.

(** ** Characters of a string *)

(** [c in s] for a one-character string [c]. *)
Fixpoint has_char (c : ascii) (s : string) : bool :=
  match s with
  | EmptyString => false
  | String a s' => Ascii.eqb a c || has_char c s'
  end.

(** The directive characters of [directive_mapper]. *)
Definition known_directives : list ascii :=
  ["%"; "p"; "h"; "H"; "f"; "r"; "R"; "m"; "M"; "D"; "P"; "t"; "T"; "e"]%char.


(** ** parsing.py: [map_stats] *)

(** [map_stats]: [dict(zip(stat_order, stats))], in which the last value
    given to a name stays; [None] is the [ValueError] of two lengths that
    differ. *)
Definition map_stats {V} (stat_order : list string) (stats : list V) :
    option (gmap string V) :=
  if negb (bool_decide (length stat_order = length stats)) then None
  else Some (list_to_map (reverse (zip stat_order stats))).

(** ** parsing.py: [Parser] *)

(** A [dict] with [str] keys in the order of insertion. *)
Fixpoint assoc_get {V} (key : string) (d : list (string * V)) : option V :=
  match d with
  | [] => None
  | (k, v) :: d => if String.eqb k key then Some v else assoc_get key d
  end.

(** [d[key] = v]: a key that is present keeps its place, a new key goes
    last. *)
Fixpoint assoc_set {V} (key : string) (v : V) (d : list (string * V)) :
    list (string * V) :=
  match d with
  | [] => [(key, v)]
  | (k, x) :: d => if String.eqb k key then (k, v) :: d else (k, x) :: assoc_set key v d
  end.

Module Parser.

Record t : Type := {
  include_exts : gset string;
  exclude_exts : gset string;
  ignore_padding : bool;
  _sequences : list (string * Sequence.t);
  sequences : list Sequence.t;
  single_frames : list File.t;
  non_sequences : list File.t;
  excluded : list File.t;
  collisions : list File.t;
  parsed : bool;
}.

Definition _reset (self : t) : t :=
  {| include_exts := include_exts self; exclude_exts := exclude_exts self;
     ignore_padding := ignore_padding self;
     _sequences := []; sequences := []; single_frames := [];
     non_sequences := []; excluded := []; collisions := []; parsed := false |}.

(** [Parser.__init__] for two lists of extensions: the object, and the
    configuration after the assignment to [cfg.get_stats]. *)
Definition init (cfg : Config.t) (include_exts exclude_exts : list string)
    (get_stats ignore_padding : bool) : Config.t * t :=
  let cfg := {| Config.ignore_padding := Config.ignore_padding cfg;
                Config.get_stats := get_stats;
                Config.frame_extract_re := Config.frame_extract_re cfg |} in
  (cfg,
   _reset {| include_exts := list_to_set include_exts;
             exclude_exts := list_to_set exclude_exts;
             ignore_padding := ignore_padding;
             _sequences := []; sequences := []; single_frames := [];
             non_sequences := []; excluded := []; collisions := [];
             parsed := false |}).

Definition set__sequences (self : t) (d : list (string * Sequence.t)) : t :=
  {| include_exts := include_exts self; exclude_exts := exclude_exts self;
     ignore_padding := ignore_padding self;
     _sequences := d; sequences := sequences self;
     single_frames := single_frames self; non_sequences := non_sequences self;
     excluded := excluded self; collisions := collisions self;
     parsed := parsed self |}.

Definition set_sequences (self : t) (l : list Sequence.t) : t :=
  {| include_exts := include_exts self; exclude_exts := exclude_exts self;
     ignore_padding := ignore_padding self;
     _sequences := _sequences self; sequences := l;
     single_frames := single_frames self; non_sequences := non_sequences self;
     excluded := excluded self; collisions := collisions self;
     parsed := parsed self |}.

Definition set_single_frames (self : t) (l : list File.t) : t :=
  {| include_exts := include_exts self; exclude_exts := exclude_exts self;
     ignore_padding := ignore_padding self;
     _sequences := _sequences self; sequences := sequences self;
     single_frames := l; non_sequences := non_sequences self;
     excluded := excluded self; collisions := collisions self;
     parsed := parsed self |}.

Definition set_non_sequences (self : t) (l : list File.t) : t :=
  {| include_exts := include_exts self; exclude_exts := exclude_exts self;
     ignore_padding := ignore_padding self;
     _sequences := _sequences self; sequences := sequences self;
     single_frames := single_frames self; non_sequences := l;
     excluded := excluded self; collisions := collisions self;
     parsed := parsed self |}.

Definition set_excluded (self : t) (l : list File.t) : t :=
  {| include_exts := include_exts self; exclude_exts := exclude_exts self;
     ignore_padding := ignore_padding self;
     _sequences := _sequences self; sequences := sequences self;
     single_frames := single_frames self; non_sequences := non_sequences self;
     excluded := l; collisions := collisions self;
     parsed := parsed self |}.

Definition set_collisions (self : t) (l : list File.t) : t :=
  {| include_exts := include_exts self; exclude_exts := exclude_exts self;
     ignore_padding := ignore_padding self;
     _sequences := _sequences self; sequences := sequences self;
     single_frames := single_frames self; non_sequences := non_sequences self;
     excluded := excluded self; collisions := l;
     parsed := parsed self |}.

Definition set_parsed (self : t) (b : bool) : t :=
  {| include_exts := include_exts self; exclude_exts := exclude_exts self;
     ignore_padding := ignore_padding self;
     _sequences := _sequences self; sequences := sequences self;
     single_frames := single_frames self; non_sequences := non_sequences self;
     excluded := excluded self; collisions := collisions self;
     parsed := b |}.

(** The test of the extension in [_sort_file]. *)
Definition is_excluded (self : t) (file_ : File.t) : bool :=
  negb (bool_decide (include_exts self = ∅))
  && negb (bool_decide (Py.lower (File.ext file_) ∈ include_exts self))
  || bool_decide (Py.lower (File.ext file_) ∈ exclude_exts self).

(** [_sort_file]: the parser as the call leaves it, and whether the call
    returned or raised.  The [File] is made with [stats] and without
    [get_stats], which reads no file metadata. *)
Definition _sort_file (cfg : Config.t) (self : t) (file_ : string)
    (stats : stats_arg) : t * outcome unit :=
  let file_ := (File.init (λ _, None) cfg file_ stats None).2 in
  if is_excluded self file_ then
    (set_excluded self (excluded self ++ [file_]), Return ())
  else
    match File.frame file_ with
    | None => (set_non_sequences self (non_sequences self ++ [file_]), Return ())
    | Some _ =>
        let seq_name := File.get_seq_key cfg file_ None in
        match assoc_get seq_name (_sequences self) with
        | Some seq =>
            match Sequence.append cfg seq (AsFile file_) with
            | (seq, Ok _) =>
                (set__sequences self (assoc_set seq_name seq (_sequences self)),
                 Return ())
            | (seq, Raise IndexError_already_in_sequence) =>
                (set_collisions
                   (set__sequences self (assoc_set seq_name seq (_sequences self)))
                   (collisions self ++ [file_]), Return ())
            | (seq, Raise e) =>
                (set__sequences self (assoc_set seq_name seq (_sequences self)),
                 Throw (Raised e))
            end
        | None =>
            match Sequence.init cfg (Some (AsFile file_)) None with
            | (_, seq, Ok _) =>
                (set__sequences self (assoc_set seq_name seq (_sequences self)),
                 Return ())
            | (_, _, Raise e) => (self, Throw (Raised e))
            end
        end
    end.

(** The loop of [_cleanup] over the items [popitem] returns, the last
    inserted first; [rest] are the items still in [self._sequences] once
    the item at hand is popped. *)
Fixpoint _cleanup_loop (self : t) (items : list (string * Sequence.t)) :
    t * outcome unit :=
  match items with
  | [] => (self, Return ())
  | (_, seq) :: rest =>
      let self := set__sequences self (reverse rest) in
      if bool_decide (Sequence.frames seq = 1%nat) then
        match Sequence.getitem seq 0 with
        | Return file =>
            _cleanup_loop (set_single_frames self (single_frames self ++ [file])) rest
        | Throw e => (self, Throw e)
        end
      else _cleanup_loop (set_sequences self (sequences self ++ [seq])) rest
  end.

Definition _cleanup (self : t) : t * outcome unit :=
  match _cleanup_loop self (reverse (_sequences self)) with
  | (self, Return _) => (set_parsed self true, Return ())
  | (self, Throw e) => (self, Throw e)
  end.

(** The loop of [parse_directory] over the list of files of the
    directory. *)
Fixpoint _sort_files (cfg : Config.t) (self : t)
    (file_list : list (string * stats_arg)) : t * outcome unit :=
  match file_list with
  | [] => (self, Return ())
  | file_ :: file_list =>
      let '(self, outcome) :=
        if Config.get_stats cfg then _sort_file cfg self file_.1 file_.2
        else _sort_file cfg self file_.1 StatsNone in
      match outcome with
      | Return _ => _sort_files cfg self file_list
      | Throw e => (self, Throw e)
      end
  end.

(** [parse_directory] for a directory that exists, whose files
    [get_files_in_directory] has listed as [file_list]. *)
Definition parse_file_list (cfg : Config.t) (self : t)
    (file_list : list (string * stats_arg)) : t * outcome unit :=
  let self := _reset self in
  match _sort_files cfg self file_list with
  | (self, Return _) => _cleanup self
  | (self, Throw e) => (self, Throw e)
  end.

End Parser.

(** The files a parser holds, in its buckets and in its sequences. *)
Definition frames_of (seqs : list Sequence.t) : nat :=
  sum_list (Sequence.frames <$> seqs).

Definition held (self : Parser.t) : nat :=
  length (Parser.excluded self) + length (Parser.non_sequences self)
  + length (Parser.collisions self) + length (Parser.single_frames self)
  + frames_of (Parser.sequences self) + frames_of (Parser._sequences self).*2.

(** The [File] that [_sort_file] makes of an item of the list of files. *)
Definition file_of (cfg : Config.t) (item : string * stats_arg) : File.t :=
  (File.init (λ _, None) cfg item.1
     (if Config.get_stats cfg then item.2 else StatsNone) None).2.

(** The files of a sequence all have its key and are stored under their
    frame numbers. *)
Definition one_key (cfg : Config.t) (seq : Sequence.t) : Prop :=
  ∀ k file,
    Sequence._frames seq !! k = Some file →
    File.frame file = Some k
    ∧ File.get_seq_key cfg file None = Sequence.seq_name seq.


(** What holds of the dict of sequences between two calls of
    [_sort_file]. *)
Definition sorted_so_far (cfg : Config.t) (d : list (string * Sequence.t)) : Prop :=
  NoDup d.*1
  ∧ ∀ k seq, (k, seq) ∈ d →
      Sequence.seq_name seq = k ∧ Sequence.frames seq ≠ 0%nat ∧ one_key cfg seq.

(** A parser that excludes the extension [tmp], and a directory of eight
    files. *)
Definition no_tmp : Parser.t := (Parser.init cfg [] ["tmp"] false true).2.

Definition mixed_files : list (string * stats_arg) :=
  (λ name, (name, StatsNone)) <$>
    ["/r/shot.0001.exr"; "/r/shot.0002.exr"; "/r/notes.txt";
     "/r/render.0001.TMP"; "/r/shot.2.exr"; "/r/one.5.exr"; "/r/b.1.exr";
     "/r/b.2.exr"].


(** * Properties *)

(** ** The module functions on examples *)

Example extract_frame_ex1 :
  extract_frame cfg "shot.0010" = ("shot.", "0010", "").
Proof. reflexivity. Qed.

Example extract_frame_ex2 :
  extract_frame cfg "a12b034cd" = ("a12b", "034", "cd").
Proof. reflexivity. Qed.

Example split_extension_ex1 :
  split_extension "shot.0010.exr" = ("shot.0010", "exr")
  ∧ split_extension "shot0010" = ("shot0010", "")
  ∧ Py.os_path_split "/r/a/shot.0010.exr" = ("/r/a", "shot.0010.exr")
  ∧ Py.os_path_split "/shot" = ("/", "shot")
  ∧ Py.os_path_split "shot" = ("", "shot")
  ∧ Py.os_path_join "/r/a" "shot." = "/r/a/shot."
  ∧ Py.str 120 = "120" ∧ Py.int "0010" = Some 10.
Proof. repeat split; reflexivity. Qed.

Example frame_ranges_to_string_ex :
  (frame_ranges_to_string (PyList [10; 11; 12; 13; 14; 16; 20; 21; 22])).1
  = Ok "[10-14, 16, 20-22]".
Proof. vm_compute. reflexivity. Qed.

(** ** The frame extractor *)

Lemma last_digit_run_spec (name : string) :
  match last_digit_run name with
  | Some (head, frame, tail) =>
      head +:+ frame +:+ tail = name
      ∧ frame ≠ "" ∧ Py.all_digits frame = true
      ∧ Py.has_digit tail = false
      ∧ Py.ends_with_digit head = false
      ∧ Py.has_digit name = true
  | None => Py.has_digit name = false
  end.
Proof.
  induction name as [|c rest IH]; simpl; [done|].
  destruct (last_digit_run rest) as [[[head frame] tail]|].
  - destruct IH as (Hcat & Hne & Hall & Htail & Hend & Hhas).
    rewrite Hhas, orb_true_r.
    destruct head as [|a head'].
    + destruct (Py.is_digit c) eqn:Hc; simpl;
        rewrite ?Hc, ?Hall; subst rest; done.
    + simpl in *. by rewrite <- Hcat.
  - destruct (Py.is_digit c) eqn:Hc; simpl; rewrite ?Hc; done.
Qed.

(** C2.  The frame extractor splits a stem that has a digit around its last
    maximal run of digits: the three parts concatenate back to the stem, the
    frame is a non-empty run of digits kept as written, no digit follows it
    (it is the last run) and no digit precedes it (it is maximal).  A stem
    without a digit comes back as [(stem, '', '')], and whenever the head
    group of the match is absent the head returned is the empty string. *)
Theorem extract_frame_last_digit_run (stem : string) :
  (Py.has_digit stem = true →
     ∃ head frame tail,
       extract_frame cfg stem = (head, frame, tail)
       ∧ head +:+ frame +:+ tail = stem
       ∧ frame ≠ "" ∧ Py.all_digits frame = true
       ∧ Py.has_digit tail = false
       ∧ Py.ends_with_digit head = false)
  ∧ (Py.has_digit stem = false → extract_frame cfg stem = (stem, "", ""))
  ∧ (∀ (c : Config.t) groups,
       Config.frame_extract_re c stem = Some groups →
       head_group groups = None →
       extract_frame c stem = ("", frame_group groups, tail_group groups))
  ∧ (∀ c : Config.t,
       Config.frame_extract_re c stem = None →
       extract_frame c stem = (stem, "", "")).
Proof.
  pose proof (last_digit_run_spec stem) as Hrun.
  unfold extract_frame. simpl. unfold default_frame_extract_re.
  destruct (last_digit_run stem) as [[[head frame] tail]|].
  - destruct Hrun as (Hcat & Hne & Hall & Htail & Hend & Hhas).
    split; [|split; [|split]].
    + intros _. destruct head as [|a head']; simpl.
      * exists "", frame, tail. done.
      * exists (String a head'), frame, tail. done.
    + intros Hno. congruence.
    + intros c groups -> ->. done.
    + intros c ->. done.
  - split; [|split; [|split]].
    + intros Hhas. congruence.
    + done.
    + intros c groups -> ->. done.
    + intros c ->. done.
Qed.

Lemma extract_frame_last_digit_run_witness :
  Py.has_digit "shot_v2.0010_final" = true
  ∧ (∃ head frame tail,
       extract_frame cfg "shot_v2.0010_final" = (head, frame, tail)
       ∧ head +:+ frame +:+ tail = "shot_v2.0010_final"
       ∧ frame ≠ "" ∧ Py.all_digits frame = true
       ∧ Py.has_digit tail = false
       ∧ Py.ends_with_digit head = false)
  ∧ Py.has_digit "notes" = false
  ∧ extract_frame cfg "notes" = ("notes", "", "")
  ∧ extract_frame cfg "0042" = ("", "0042", "").
Proof.
  destruct (extract_frame_last_digit_run "shot_v2.0010_final") as (Hrun & _).
  destruct (extract_frame_last_digit_run "notes") as (_ & Hnone & _).
  destruct (extract_frame_last_digit_run "0042") as (_ & _ & Habsent & _).
  split; [reflexivity|]. split; [apply Hrun; reflexivity|].
  split; [reflexivity|]. split; [apply Hnone; reflexivity|].
  apply (Habsent cfg (FrameGroups None "0042" "")); reflexivity.
Defined.

(** ** The range compressor *)

Lemma foldl_ranges_step (xs : list Z) : ∀ (closed : list (list Z)) (cur : list Z),
  (foldl ranges_step (closed ++ [cur], length closed) xs).1
  = closed ++ runs_from cur xs.
Proof.
  induction xs as [|x xs IH]; intros closed cur; simpl; [done|].
  rewrite list_lookup_middle by done. simpl.
  case_bool_decide as Hlast.
  - rewrite (alter_app_r_alt _ closed [cur]) by lia.
    rewrite Nat.sub_diag. simpl. apply IH.
  - replace (S (length closed)) with (length (closed ++ [cur]))
      by (rewrite length_app; simpl; lia).
    rewrite IH. by rewrite <- app_assoc.
Qed.

Lemma consecutive_snoc (r : list Z) (x : Z) :
  consecutive r → last r = Some (x - 1) → consecutive (r ++ [x]).
Proof.
  induction r as [|a [|b r] IH]; simpl; intros Hr Hlast; [done| |].
  - injection Hlast as ->. split; [lia | done].
  - destruct Hr as [-> Hr]. split; [done|]. by apply IH.
Qed.

Lemma runs_from_head (xs : list Z) : ∀ cur : list Z,
  cur ≠ [] → ∃ r rs, runs_from cur xs = r :: rs ∧ head r = head cur.
Proof.
  induction xs as [|x xs IH]; intros cur Hcur; simpl.
  - by exists cur, [].
  - case_bool_decide.
    + destruct (IH (cur ++ [x])) as (r & rs & -> & Hhead).
      { by destruct cur. }
      exists r, rs. split; [done|]. rewrite Hhead. by destruct cur.
    + by exists cur, (runs_from [x] xs).
Qed.

Lemma runs_from_maximal (xs : list Z) : ∀ cur : list Z,
  cur ≠ [] → consecutive cur → maximal_runs (runs_from cur xs) (cur ++ xs).
Proof.
  induction xs as [|x xs IH]; intros cur Hcur Hcons; simpl.
  - split; [|split]; simpl; [by rewrite !app_nil_r | by repeat constructor | done].
  - case_bool_decide as Hlast.
    + replace (cur ++ x :: xs) with ((cur ++ [x]) ++ xs) by (by rewrite <- app_assoc).
      apply IH; [by destruct cur | by apply consecutive_snoc].
    + destruct (IH [x]) as (Hcat & Hall & Hsep); [done | done |].
      destruct (runs_from_head xs [x]) as (r & rs & Heq & Hhead); [done|].
      split; [|split].
      * simpl. by rewrite Hcat.
      * by constructor.
      * rewrite Heq in Hsep |- *. split; [|done].
        intros a b Ha Hb. rewrite Hhead in Hb. simpl in Hb.
        injection Hb as <-. intros ->. apply Hlast. rewrite Ha. f_equal. lia.
Qed.

Lemma range_to_string_run (r : list Z) :
  r ≠ [] → range_to_string r = run_string r.
Proof.
  intros Hr. destruct r as [|x [|y r]]; [done | done |].
  unfold range_to_string, run_string.
  destruct (last_is_Some (x :: y :: r)) as [_ [z ->]]; done.
Qed.

(** C3.  The range compressor renders a list of integers as its maximal
    runs of consecutive integers: the list is cut into non-empty runs in
    which each number is followed by its successor and none of which is
    continued by the next; a run of several numbers is written start-end, a
    lone number alone, the runs are joined by a comma and a space and the
    whole is put in square brackets.  It holds of every list, so of every
    sorted list of distinct integers; the empty list gives [[]], [[5]] gives
    [[5]] and [[1,2,3,5]] gives [[1-3, 5]]. *)
Theorem frame_ranges_to_string_maximal_runs (frame_list : list Z) :
  (∃ runs : list (list Z),
     maximal_runs runs frame_list
     ∧ (frame_ranges_to_string (PyList frame_list)).1
       = Ok ("[" +:+ Py.join ", " (run_string <$> runs) +:+ "]"))
  ∧ (frame_ranges_to_string (PyList [])).1 = Ok "[]"
  ∧ (frame_ranges_to_string (PyList [5])).1 = Ok "[5]"
  ∧ (frame_ranges_to_string (PyList [1; 2; 3; 5])).1 = Ok "[1-3, 5]".
Proof.
  split; [|by vm_compute].
  destruct frame_list as [|first rest].
  - exists []. split; [|done]. by repeat split.
  - exists (runs_from [first] rest).
    pose proof (runs_from_maximal rest [first]) as Hmax.
    split; [by apply Hmax|].
    simpl. unfold ranges_to_string.
    pose proof (foldl_ranges_step rest [] [first]) as Hfold. simpl in Hfold.
    destruct (foldl ranges_step ([[first]], 0%nat) rest) as [ranges range_i].
    simpl in Hfold. subst ranges.
    destruct Hmax as (_ & Hall & _); [done | done |].
    f_equal. f_equal. f_equal. f_equal.
    apply Forall_fmap_ext_1. eapply Forall_impl; [exact Hall|].
    intros r [Hr _]. by apply range_to_string_run.
Qed.

(** C10, as the claim has it: no argument other than a list is changed by
    the call.  An iterator is: the copy reads it to its end. *)
Lemma frame_ranges_to_string_drains_iterator :
  ¬ (∀ frame_list : iterable,
       (∀ items, frame_list ≠ PyList items) →
       (frame_ranges_to_string frame_list).2 = frame_list).
Proof.
  intros Hkept. specialize (Hkept (PyIterator [1; 2])).
  assert ((frame_ranges_to_string (PyIterator [1; 2])).2 = PyIterator []) as Hgone
    by reflexivity.
  rewrite Hkept in Hgone; [discriminate | intros items; discriminate].
Qed.

(** C10, amended.  A call on a non-empty list removes the first element of
    the caller's list.  An argument that is no list is copied first and the
    removal acts on the copy: a container such as a tuple is left as it was
    and gives the same string as the list of its items, while a one-shot
    iterator is left exhausted by the copy. *)
Theorem frame_ranges_to_string_argument_after (first : Z) (rest : list Z) :
  (frame_ranges_to_string (PyList (first :: rest))).2 = PyList rest
  ∧ (frame_ranges_to_string (PyTuple (first :: rest))).2 = PyTuple (first :: rest)
  ∧ (frame_ranges_to_string (PyIterator (first :: rest))).2 = PyIterator []
  ∧ (frame_ranges_to_string (PyTuple (first :: rest))).1
    = (frame_ranges_to_string (PyList (first :: rest))).1
  ∧ (frame_ranges_to_string (PyIterator (first :: rest))).1
    = (frame_ranges_to_string (PyList (first :: rest))).1
  ∧ (frame_ranges_to_string (PyList [])).2 = PyList []
  ∧ (frame_ranges_to_string (PyTuple [])).2 = PyTuple [].
Proof. repeat split. Qed.

(** ** The range facts of a sequence *)

Lemma foldl_min_spec (ks : list Z) : ∀ k : Z,
  (foldl Z.min k ks = k ∨ foldl Z.min k ks ∈ ks)
  ∧ foldl Z.min k ks ≤ k
  ∧ ∀ x, x ∈ ks → foldl Z.min k ks ≤ x.
Proof.
  induction ks as [|a ks IH]; intros k; simpl.
  - split; [by left|]. split; [lia|]. intros x Hx. by apply elem_of_nil in Hx.
  - destruct (IH (Z.min k a)) as (Hin & Hle & Hall).
    split; [|split].
    + destruct Hin as [Heq|Hin]; [|right; by constructor].
      rewrite Heq. destruct (Z.min_spec k a) as [[_ ->]|[_ ->]];
        [by left | right; constructor].
    + lia.
    + intros x [->|Hx]%elem_of_cons; [lia | by apply Hall].
Qed.

Lemma foldl_max_spec (ks : list Z) : ∀ k : Z,
  (foldl Z.max k ks = k ∨ foldl Z.max k ks ∈ ks)
  ∧ k ≤ foldl Z.max k ks
  ∧ ∀ x, x ∈ ks → x ≤ foldl Z.max k ks.
Proof.
  induction ks as [|a ks IH]; intros k; simpl.
  - split; [by left|]. split; [lia|]. intros x Hx. by apply elem_of_nil in Hx.
  - destruct (IH (Z.max k a)) as (Hin & Hle & Hall).
    split; [|split].
    + destruct Hin as [Heq|Hin]; [|right; by constructor].
      rewrite Heq. destruct (Z.max_spec k a) as [[_ ->]|[_ ->]];
        [right; constructor | by left].
    + lia.
    + intros x [->|Hx]%elem_of_cons; [lia | by apply Hall].
Qed.

Lemma py_min_spec (ks : list Z) :
  ks ≠ [] → ∃ lo, Sequence.py_min ks = Ok lo ∧ lo ∈ ks ∧ ∀ x, x ∈ ks → lo ≤ x.
Proof.
  destruct ks as [|k ks]; [done|]. intros _.
  destruct (foldl_min_spec ks k) as (Hin & Hle & Hall).
  exists (foldl Z.min k ks). split; [done|]. split.
  - destruct Hin as [->|Hin]; [constructor | by constructor].
  - intros x [->|Hx]%elem_of_cons; [done | by apply Hall].
Qed.

Lemma py_max_spec (ks : list Z) :
  ks ≠ [] → ∃ hi, Sequence.py_max ks = Ok hi ∧ hi ∈ ks ∧ ∀ x, x ∈ ks → x ≤ hi.
Proof.
  destruct ks as [|k ks]; [done|]. intros _.
  destruct (foldl_max_spec ks k) as (Hin & Hle & Hall).
  exists (foldl Z.max k ks). split; [done|]. split.
  - destruct Hin as [->|Hin]; [constructor | by constructor].
  - intros x [->|Hx]%elem_of_cons; [done | by apply Hall].
Qed.

Lemma elem_of_keys (self : Sequence.t) (k : Z) :
  k ∈ Sequence.keys self ↔ is_Some (Sequence._frames self !! k).
Proof.
  unfold Sequence.keys. rewrite list_elem_of_fmap. split.
  - intros ([k' file] & -> & Hin). apply elem_of_map_to_list in Hin. by exists file.
  - intros [file Hfile]. exists (k, file). split; [done|].
    by apply elem_of_map_to_list.
Qed.

Lemma keys_nil (self : Sequence.t) :
  Sequence.keys self = [] ↔ Sequence._frames self = ∅.
Proof.
  unfold Sequence.keys. rewrite <- map_to_list_empty_iff. split.
  - apply fmap_nil_inv.
  - by intros ->.
Qed.

Lemma StronglySorted_seqZ (len : nat) : ∀ m : Z,
  StronglySorted Z.lt (seqZ m (Z.of_nat len)).
Proof.
  induction len as [|len IH]; intros m.
  - rewrite seqZ_nil by lia. constructor.
  - rewrite seqZ_cons by lia. apply StronglySorted_cons. split.
    + apply Forall_seqZ. intros; lia.
    + replace (Z.pred (Z.of_nat (S len))) with (Z.of_nat len) by lia. apply IH.
Qed.

Lemma StronglySorted_filter_lt (P : Z → Prop) `{!∀ x, Decision (P x)} (l : list Z) :
  StronglySorted Z.lt l → StronglySorted Z.lt (filter P l).
Proof.
  induction l as [|x l IH]; [done|].
  rewrite StronglySorted_cons. intros [Hx Hl].
  rewrite filter_cons. destruct (decide (P x)); [|by apply IH].
  apply StronglySorted_cons. split; [|by apply IH].
  rewrite Forall_forall in Hx |- *.
  intros y [_ Hy]%list_elem_of_filter. by apply Hx.
Qed.

(** C8.  On a sequence that has a frame, [start] and [end] are the least
    and the greatest key of the frame map, [implied_frames] is
    [end - start + 1], [missing_frames] is [implied_frames] less the number
    of frames, and [get_missing_frames] is the increasing list of exactly
    the integers between [start] and [end] that are no key.  The sequence of
    frames 10, 11, 14, 15 and 20 misses 12, 13, 16, 17, 18 and 19, and its
    [%M] is [[12-13, 16-19]]. *)
Theorem sequence_range_facts :
  (∀ self : Sequence.t,
     Sequence._frames self ≠ ∅ →
     ∃ lo hi : Z,
       Sequence.start self = Ok lo ∧ Sequence.end_ self = Ok hi
       ∧ is_Some (Sequence._frames self !! lo)
       ∧ is_Some (Sequence._frames self !! hi)
       ∧ (∀ k, is_Some (Sequence._frames self !! k) → lo ≤ k ≤ hi)
       ∧ Sequence.implied_frames self = Ok (hi - lo + 1)
       ∧ Sequence.missing_frames self
         = Ok (hi - lo + 1 - Z.of_nat (size (Sequence._frames self)))
       ∧ ∃ missing : list Z,
           Sequence.get_missing_frames self = Ok missing
           ∧ StronglySorted Z.lt missing
           ∧ ∀ k, k ∈ missing ↔ lo ≤ k ≤ hi ∧ Sequence._frames self !! k = None)
  ∧ (∃ shot : Sequence.t,
       shot_10_20 = (shot, Ok ())
       ∧ Sequence.frame_numbers shot = [10; 11; 14; 15; 20]
       ∧ Sequence.implied_frames shot = Ok 11
       ∧ Sequence.missing_frames shot = Ok 6
       ∧ Sequence.get_missing_frames shot = Ok [12; 13; 16; 17; 18; 19]
       ∧ Sequence.format shot "%M" = Ok "[12-13, 16-19]").
Proof.
  split.
  - intros self Hframes.
    assert (Sequence.keys self ≠ []) as Hkeys by (by rewrite keys_nil).
    destruct (py_min_spec _ Hkeys) as (lo & Hmin & Hlo & Hleast).
    destruct (py_max_spec _ Hkeys) as (hi & Hmax & Hhi & Hmost).
    assert (lo ≤ hi) as Hle by (by apply Hleast).
    exists lo, hi.
    unfold Sequence.implied_frames, Sequence.missing_frames,
      Sequence.get_missing_frames, Sequence.start, Sequence.end_, Sequence.frames.
    rewrite Hmin, Hmax. simpl.
    split; [done|]. split; [done|].
    split; [by apply elem_of_keys|]. split; [by apply elem_of_keys|].
    split.
    { intros k Hk%elem_of_keys. split; [by apply Hleast | by apply Hmost]. }
    split; [done|]. split; [f_equal; lia|].
    eexists. split; [done|]. split.
    + apply StronglySorted_filter_lt.
      replace (hi + 1 - lo) with (Z.of_nat (Z.to_nat (hi + 1 - lo))) by lia.
      apply StronglySorted_seqZ.
    + intros k. rewrite list_elem_of_filter, elem_of_seqZ. split.
      * intros [Hnone Hk]. split; [lia | done].
      * intros [Hk Hnone]. split; [done | lia].
  - eexists. split; [vm_compute; reflexivity|].
    repeat split; vm_compute; reflexivity.
Qed.

Lemma sequence_range_facts_witness :
  ∃ shot : Sequence.t,
    shot_10_20 = (shot, Ok ())
    ∧ Sequence._frames shot ≠ ∅
    ∧ ∃ lo hi : Z,
        Sequence.start shot = Ok lo ∧ Sequence.end_ shot = Ok hi
        ∧ Sequence.implied_frames shot = Ok (hi - lo + 1).
Proof.
  destruct sequence_range_facts as [Hfacts (shot & Hshot & Hnumbers & _)].
  exists shot. split; [exact Hshot|].
  assert (Sequence._frames shot ≠ ∅) as Hframes.
  { intros Hempty. apply keys_nil in Hempty.
    unfold Sequence.frame_numbers in Hnumbers. rewrite Hempty in Hnumbers.
    discriminate Hnumbers. }
  split; [exact Hframes|].
  destruct (Hfacts shot Hframes) as (lo & hi & Hs & He & _ & _ & _ & Hi & _).
  exists lo, hi. by repeat split.
Defined.

(** ** The empty sequence *)

Lemma directive_empty_raises (self : Sequence.t) (char : ascii) :
  Sequence._frames self = ∅ →
  char ∈ ["r"; "m"; "M"]%char →
  Sequence.directive self char = Raise ValueError_empty_arg.
Proof.
  intros Hkeys%keys_nil Hchar.
  repeat (apply elem_of_cons in Hchar as [->|Hchar]);
    [| | |by apply elem_of_nil in Hchar];
    unfold Sequence.directive, Sequence.missing_frames,
      Sequence.get_missing_frames, Sequence.start, Sequence.end_;
    by rewrite Hkeys.
Qed.

Lemma format_loop_empty_raises (self : Sequence.t) (format : string) :
  Sequence._frames self = ∅ →
  ∀ (new_string : string) (matched : bool) (char : ascii),
    char ∈ directives_from format matched →
    char ∈ ["r"; "m"; "M"]%char →
    raises (Sequence.format_loop self format new_string matched).
Proof.
  intros Hempty. induction format as [|c format IH];
    intros new_string matched char Hin Hchar; simpl in *.
  - by apply elem_of_nil in Hin.
  - destruct matched.
    + apply elem_of_cons in Hin as [->|Hin].
      * rewrite (directive_empty_raises self c Hempty Hchar). by eexists.
      * destruct (Sequence.directive self c) as [part|e]; simpl; [|by eexists].
        by apply (IH _ false char).
    + destruct (Ascii.eqb c "%"); by eapply IH.
Qed.

(** C9, as the claim has it: a template with [%R] raises on the empty
    sequence.  It does not: [sorted] of no frame is the empty list, which
    the range compressor renders as [[]]. *)
Lemma format_explicit_range_of_empty :
  ¬ (∀ format : string,
       "R"%char ∈ directives format →
       raises (Sequence.format Sequence.empty format)).
Proof.
  intros Hraises. destruct (Hraises "%R") as [e He].
  - vm_compute. constructor.
  - vm_compute in He. discriminate He.
Qed.

(** C9, amended.  On a sequence without a frame, [start], [end],
    [implied_frames] and [missing_frames] raise the [ValueError] of the
    minimum or maximum of no key, and so does the list of missing frames;
    [format] raises on every template of which [%r], [%m] or [%M] is a
    directive, no empty string standing in for them.  [%R] is rendered, as
    [[]]. *)
Theorem empty_sequence_raises (self : Sequence.t) :
  Sequence._frames self = ∅ →
  Sequence.start self = Raise ValueError_empty_arg
  ∧ Sequence.end_ self = Raise ValueError_empty_arg
  ∧ Sequence.implied_frames self = Raise ValueError_empty_arg
  ∧ Sequence.missing_frames self = Raise ValueError_empty_arg
  ∧ Sequence.get_missing_frames self = Raise ValueError_empty_arg
  ∧ (∀ (format : string) (char : ascii),
       char ∈ directives format →
       char ∈ ["r"; "m"; "M"]%char →
       raises (Sequence.format self format))
  ∧ Sequence.format self "%R" = Ok "[]".
Proof.
  intros Hempty. pose proof Hempty as Hkeys%keys_nil.
  unfold Sequence.implied_frames, Sequence.missing_frames,
    Sequence.get_missing_frames, Sequence.start, Sequence.end_.
  rewrite Hkeys. simpl. repeat (split; [done|]). split.
  - intros format char Hin Hchar.
    by apply (format_loop_empty_raises self format Hempty "" false char).
  - unfold Sequence.format. simpl. unfold Sequence.frame_numbers.
    by rewrite Hkeys.
Qed.

Lemma empty_sequence_raises_witness :
  Sequence._frames Sequence.empty = ∅
  ∧ Sequence.start Sequence.empty = Raise ValueError_empty_arg
  ∧ raises (Sequence.format Sequence.empty "%H%r%T")
  ∧ Sequence.format Sequence.empty "%R" = Ok "[]".
Proof.
  destruct (empty_sequence_raises Sequence.empty eq_refl)
    as (Hstart & _ & _ & _ & _ & Hformat & Hrange).
  split; [reflexivity|]. split; [exact Hstart|]. split; [|exact Hrange].
  apply (Hformat "%H%r%T" "r"%char); vm_compute; repeat constructor.
Defined.

(** ** Appending to a sequence *)

(** What a call of [append] that returns has done to a sequence that had a
    frame. *)
Lemma append_returns (cfg : Config.t) (self self' : Sequence.t) (file : file_arg) :
  Sequence.frames self ≠ 0%nat →
  Sequence.append cfg self file = (self', Ok ()) →
  ∃ frame : Z,
    File.frame (Sequence.as_file cfg file) = Some frame
    ∧ Sequence._frames self !! frame = None
    ∧ Sequence._frames self'
      = <[frame := Sequence.as_file cfg file]> (Sequence._frames self)
    ∧ Sequence.seq_name self' = Sequence.seq_name self
    ∧ Sequence.padding self'
      = (Sequence.padding self `max` File.padding (Sequence.as_file cfg file))%nat
    ∧ Sequence.inconsistent_padding self'
      = Sequence.inconsistent_padding self
        || bool_decide (Sequence.padding self
                        < File.padding (Sequence.as_file cfg file))%nat.
Proof.
  intros Hframes. unfold Sequence.append.
  destruct (Sequence.not_a_member cfg self file); [done|].
  destruct (File.frame (Sequence.as_file cfg file)) as [frame|]; [|done].
  rewrite (bool_decide_eq_false_2 _ Hframes).
  case_bool_decide as Hin; [done|].
  apply eq_None_not_Some in Hin.
  case_bool_decide as Hpad; intros [= <-]; exists frame; simpl;
    repeat (split; [done|]).
  - split; [lia | by rewrite orb_true_r].
  - split; [lia | by rewrite orb_false_r].
Qed.

Lemma append_first (cfg : Config.t) (self' : Sequence.t) (file : file_arg) :
  Sequence.append cfg Sequence.empty file = (self', Ok ()) →
  Sequence.frames self' ≠ 0%nat
  ∧ Sequence.padding self' = File.padding (Sequence.as_file cfg file)
  ∧ Sequence.inconsistent_padding self' = false.
Proof.
  unfold Sequence.append.
  destruct (Sequence.not_a_member cfg Sequence.empty file); [done|].
  destruct (File.frame (Sequence.as_file cfg file)) as [frame|]; [|done].
  simpl. intros [= <-]. simpl. split; [|done].
  unfold Sequence.frames. simpl. apply map_size_non_empty_iff, insert_non_empty.
Qed.

Lemma append_frames_grow (cfg : Config.t) (self self' : Sequence.t) (file : file_arg) :
  Sequence.frames self ≠ 0%nat →
  Sequence.append cfg self file = (self', Ok ()) →
  Sequence.frames self' ≠ 0%nat.
Proof.
  intros Hframes Happend.
  destruct (append_returns _ _ _ _ Hframes Happend) as (frame & _ & _ & Hmap & _).
  unfold Sequence.frames. rewrite Hmap.
  apply map_size_non_empty_iff, insert_non_empty.
Qed.

Lemma append_returns_insert (cfg : Config.t) (self self' : Sequence.t) (file : file_arg) :
  Sequence.append cfg self file = (self', Ok ()) →
  ∃ frame : Z,
    File.frame (Sequence.as_file cfg file) = Some frame
    ∧ Sequence._frames self'
      = <[frame := Sequence.as_file cfg file]> (Sequence._frames self).
Proof.
  unfold Sequence.append.
  destruct (Sequence.not_a_member cfg self file); [done|].
  destruct (File.frame (Sequence.as_file cfg file)) as [frame|]; [|done].
  repeat case_bool_decide; try done; intros [= <-]; by exists frame.
Qed.

Lemma append_existing_frame (cfg : Config.t) (self : Sequence.t) (file : file_arg)
    (frame : Z) :
  File.frame (Sequence.as_file cfg file) = Some frame →
  is_Some (Sequence._frames self !! frame) →
  Sequence.append cfg self file
  = (self, Raise (if Sequence.not_a_member cfg self file
                  then ValueError_not_a_member
                  else IndexError_already_in_sequence)).
Proof.
  intros Hframe Hin. unfold Sequence.append.
  destruct (Sequence.not_a_member cfg self file); [done|].
  rewrite Hframe.
  assert (Sequence.frames self ≠ 0%nat) as Hframes.
  { unfold Sequence.frames. apply map_size_non_empty_iff.
    intros Hempty. rewrite Hempty, lookup_empty in Hin. by destruct Hin. }
  rewrite (bool_decide_eq_false_2 _ Hframes).
  by rewrite (bool_decide_eq_true_2 _ Hin).
Qed.

(** C1, as the claim has it: every append of a file whose frame number is
    a key signals the collision.  A name whose key is not that of the
    sequence is turned down as no member before its frame is looked at. *)
Lemma append_existing_frame_of_other_key :
  ¬ (∀ (self : Sequence.t) (file : file_arg) (frame : Z),
       File.frame (Sequence.as_file cfg file) = Some frame →
       is_Some (Sequence._frames self !! frame) →
       (Sequence.append cfg self file).2 = Raise IndexError_already_in_sequence).
Proof.
  intros Hcollision.
  specialize (Hcollision shot_0010 (AsStr "/b/other.0010.jpg") 10).
  assert ((Sequence.append cfg shot_0010 (AsStr "/b/other.0010.jpg")).2
          = Raise ValueError_not_a_member) as Hmember by (vm_compute; reflexivity).
  rewrite Hcollision in Hmember.
  - discriminate Hmember.
  - vm_compute. reflexivity.
  - vm_compute. by eexists.
Qed.

(** C1, amended.  An append of a file whose frame number is already a key
    of the frame map raises and leaves the sequence as it was, the stored
    file and every field included.  The exception is the collision
    ([IndexError]) for a [File] object and for a name whose key is that of
    the sequence; a name whose key differs is turned down as no member
    ([ValueError]) instead.  Of two [File] objects of one frame number,
    whichever is appended first stays. *)
Theorem append_existing_frame_rejected :
  (∀ (cfg : Config.t) (self : Sequence.t) (file : file_arg) (frame : Z),
     File.frame (Sequence.as_file cfg file) = Some frame →
     is_Some (Sequence._frames self !! frame) →
     (Sequence.append cfg self file).1 = self
     ∧ (Sequence.append cfg self file).2
       = Raise (if Sequence.not_a_member cfg self file
                then ValueError_not_a_member
                else IndexError_already_in_sequence)
     ∧ (Sequence.not_a_member cfg self file = true ↔
          ∃ name, file = AsStr name
            ∧ File.get_seq_key cfg (Sequence.as_file cfg file)
                (Some (Config.ignore_padding cfg))
              ≠ Sequence.seq_name self))
  ∧ (∀ (cfg : Config.t) (self after : Sequence.t) (first second : File.t) (frame : Z),
       File.frame first = Some frame →
       File.frame second = Some frame →
       Sequence.append cfg self (AsFile first) = (after, Ok ()) →
       Sequence.append cfg after (AsFile second)
       = (after, Raise IndexError_already_in_sequence)
       ∧ Sequence._frames after !! frame = Some first).
Proof.
  split.
  - intros cfg self file frame Hframe Hin.
    rewrite (append_existing_frame cfg self file frame Hframe Hin). simpl.
    split; [done|]. split; [done|].
    assert (0 < size (Sequence._frames self))%nat as Hsize.
    { apply Nat.neq_0_lt_0, map_size_non_empty_iff.
      intros Hempty. rewrite Hempty, lookup_empty in Hin. by destruct Hin. }
    destruct file as [file|name]; simpl.
    + split; [done|]. by intros (name & [=] & _).
    + rewrite (bool_decide_eq_true_2 _ Hsize). simpl.
      rewrite negb_true_iff, String.eqb_neq. split.
      * intros Hne. by exists name.
      * by intros (_ & _ & Hne).
  - intros cfg self after first second frame Hfirst Hsecond Happend.
    destruct (append_returns_insert _ _ _ _ Happend) as (frame' & Hframe' & Hmap).
    simpl in Hframe'. rewrite Hfirst in Hframe'. injection Hframe' as <-.
    assert (Sequence._frames after !! frame = Some first) as Hstored
      by (by rewrite Hmap, lookup_insert_eq).
    split; [|done].
    by rewrite (append_existing_frame cfg after (AsFile second) frame Hsecond).
Qed.

Lemma append_existing_frame_rejected_witness :
  File.frame (Sequence.as_file cfg (AsStr "/r/shot.0010.exr")) = Some 10
  ∧ is_Some (Sequence._frames shot_0010 !! 10)
  ∧ Sequence.append cfg shot_0010 (AsStr "/r/shot.0010.exr")
    = (shot_0010, Raise IndexError_already_in_sequence)
  ∧ Sequence.append cfg shot_0010 (AsFile other_0010)
    = (shot_0010, Raise IndexError_already_in_sequence).
Proof.
  assert (File.frame (Sequence.as_file cfg (AsStr "/r/shot.0010.exr")) = Some 10)
    as Hname by (vm_compute; reflexivity).
  assert (File.frame (Sequence.as_file cfg (AsFile other_0010)) = Some 10)
    as Hfile by (vm_compute; reflexivity).
  assert (is_Some (Sequence._frames shot_0010 !! 10)) as Hin
    by (vm_compute; by eexists).
  destruct append_existing_frame_rejected as [Hrejected _].
  destruct (Hrejected cfg shot_0010 _ 10 Hname Hin) as (Hname1 & Hname2 & _).
  destruct (Hrejected cfg shot_0010 _ 10 Hfile Hin) as (Hfile1 & Hfile2 & _).
  split; [exact Hname|]. split; [exact Hin|]. split.
  - rewrite (surjective_pairing (Sequence.append _ _ _)), Hname1, Hname2.
    vm_compute. reflexivity.
  - rewrite (surjective_pairing (Sequence.append _ _ _)), Hfile1, Hfile2.
    reflexivity.
Defined.

(** The test of the key that [append] makes of a name: a name whose key is
    not that of a sequence with a frame is turned down, and the sequence is
    left as it was. *)
Lemma append_name_not_a_member (cfg : Config.t) (self : Sequence.t) (name : string) :
  Sequence._frames self ≠ ∅ →
  File.get_seq_key cfg (Sequence.as_file cfg (AsStr name))
    (Some (Config.ignore_padding cfg)) ≠ Sequence.seq_name self →
  Sequence.append cfg self (AsStr name) = (self, Raise ValueError_not_a_member).
Proof.
  intros Hframes%map_size_non_empty_iff Hkey%String.eqb_neq.
  unfold Sequence.append, Sequence.not_a_member.
  rewrite Hkey. simpl.
  by rewrite bool_decide_eq_true_2 by lia.
Qed.

(** C4.  The sequence of [/r/shot.0010.exr] has the key [/r/shot.#.exr]
    and the file [/b/other.0002.jpg] the key [/b/other.#.jpg].  Given as a
    name the file is turned down as no member and the sequence is left as
    it was; given as a [File] object it is appended: the call returns, and
    the file is stored as frame 2 of the sequence, whose key is as
    before. *)
Theorem append_file_object_key_unchecked :
  Sequence.seq_name shot_0010 = "/r/shot.#.exr"
  ∧ File.get_seq_key cfg other_0002 (Some (Config.ignore_padding cfg))
    = "/b/other.#.jpg"
  ∧ Sequence.as_file cfg (AsStr "/b/other.0002.jpg") = other_0002
  ∧ Sequence.append cfg shot_0010 (AsStr "/b/other.0002.jpg")
    = (shot_0010, Raise ValueError_not_a_member)
  ∧ (Sequence.append cfg shot_0010 (AsFile other_0002)).2 = Ok ()
  ∧ Sequence._frames (Sequence.append cfg shot_0010 (AsFile other_0002)).1 !! 2
    = Some other_0002
  ∧ Sequence.seq_name (Sequence.append cfg shot_0010 (AsFile other_0002)).1
    = "/r/shot.#.exr".
Proof. repeat split; vm_compute; reflexivity. Qed.

(** ** Padding *)

Lemma appends_padding (cfg : Config.t) (files : list file_arg) :
  ∀ self after : Sequence.t,
    Sequence.frames self ≠ 0%nat →
    appends cfg self files = (after, Ok ()) →
    Sequence.padding after = (Sequence.padding self `max` max_padding cfg files)%nat
    ∧ (Sequence.inconsistent_padding after = true ↔
         Sequence.inconsistent_padding self = true
         ∨ ∃ before file later,
             files = before ++ file :: later
             ∧ (Sequence.padding self `max` max_padding cfg before
                < File.padding (Sequence.as_file cfg file))%nat).
Proof.
  induction files as [|file files IH]; intros self after Hframes; simpl.
  - intros [= <-]. split; [lia|]. split; [by left|].
    intros [Hflag|(before & file & later & Hnil & _)]; [done|].
    by destruct before.
  - destruct (Sequence.append cfg self file) as [self' [[]|e]] eqn:Happend; [|done].
    intros Hrest.
    destruct (append_returns _ _ _ _ Hframes Happend)
      as (frame & _ & _ & _ & _ & Hpad & Hflag).
    destruct (IH self' after (append_frames_grow _ _ _ _ Hframes Happend) Hrest)
      as [Hpad' Hflag'].
    rewrite Hpad', Hpad. split; [lia|].
    rewrite Hflag', Hflag, orb_true_iff, bool_decide_eq_true. split.
    + intros [[Hself|Hgrow]|(before & file' & later & -> & Hlt)].
      * by left.
      * right. exists [], file, files. split; [done|]. simpl. lia.
      * right. exists (file :: before), file', later. split; [done|].
        simpl. rewrite Hpad in Hlt. lia.
    + intros [Hself|(before & file' & later & Hfiles & Hlt)]; [by left; left|].
      destruct before as [|file0 before]; simpl in Hfiles, Hlt;
        injection Hfiles as <- ->.
      * left; right. lia.
      * right. exists before, file', later. split; [done|].
        rewrite Hpad. lia.
Qed.

(** C5.  When every append of [files] to a new sequence returns, the
    padding of the sequence is the greatest padding among the files, and
    [inconsistent_padding] is set exactly when some file after the first
    had a padding greater than every file appended before it.  One append
    of a file whose padding is no greater than that of a sequence with a
    frame leaves both fields as they were. *)
Theorem appends_padding_is_running_maximum :
  (∀ (cfg : Config.t) (files : list file_arg) (after : Sequence.t),
     appends cfg Sequence.empty files = (after, Ok ()) →
     Sequence.padding after = max_padding cfg files
     ∧ (Sequence.inconsistent_padding after = true ↔
          ∃ before file later,
            files = before ++ file :: later
            ∧ before ≠ []
            ∧ (max_padding cfg before < File.padding (Sequence.as_file cfg file))%nat))
  ∧ (∀ (cfg : Config.t) (self after : Sequence.t) (file : file_arg),
       Sequence.frames self ≠ 0%nat →
       Sequence.append cfg self file = (after, Ok ()) →
       (File.padding (Sequence.as_file cfg file) ≤ Sequence.padding self)%nat →
       Sequence.padding after = Sequence.padding self
       ∧ Sequence.inconsistent_padding after = Sequence.inconsistent_padding self).
Proof.
  split.
  - intros cfg [|file files] after; simpl.
    + intros [= <-]. split; [done|]. split; [done|].
      intros (before & file & later & Hnil & _). by destruct before.
    + destruct (Sequence.append cfg Sequence.empty file)
        as [self [[]|e]] eqn:Hfirst; [|done].
      intros Hrest.
      destruct (append_first _ _ _ Hfirst) as (Hframes & Hpad & Hflag).
      destruct (appends_padding cfg files self after Hframes Hrest)
        as [Hpad' Hflag'].
      rewrite Hpad', Hpad. split; [done|].
      rewrite Hflag', Hflag. split.
      * intros [?|(before & file' & later & -> & Hlt)]; [done|].
        exists (file :: before), file', later. split; [done|]. split; [done|].
        simpl. by rewrite <- Hpad.
      * intros (before & file' & later & Hfiles & Hne & Hlt). right.
        destruct before as [|file0 before]; [done|].
        simpl in Hfiles, Hlt. injection Hfiles as <- ->.
        exists before, file', later. split; [done|]. by rewrite Hpad.
  - intros cfg self after file Hframes Happend Hle.
    destruct (append_returns _ _ _ _ Hframes Happend)
      as (frame & _ & _ & _ & _ & Hpad & Hflag).
    rewrite Hpad, Hflag. split; [lia|].
    rewrite bool_decide_eq_false_2 by lia. by rewrite orb_false_r.
Qed.

Lemma appends_padding_is_running_maximum_witness :
  let files := AsStr <$> ["/r/a.010.exr"; "/r/a.0011.exr"; "/r/a.12.exr"] in
  let after := (appends cfg Sequence.empty files).1 in
  appends cfg Sequence.empty files = (after, Ok ())
  ∧ Sequence.padding after = 4%nat
  ∧ Sequence.inconsistent_padding after = true.
Proof.
  intros files after.
  assert (appends cfg Sequence.empty files = (after, Ok ())) as Hrun
    by (vm_compute; reflexivity).
  destruct (proj1 appends_padding_is_running_maximum cfg files after Hrun)
    as [Hpad Hflag].
  split; [exact Hrun|]. split; [rewrite Hpad; reflexivity|].
  apply Hflag.
  exists [AsStr "/r/a.010.exr"], (AsStr "/r/a.0011.exr"), [AsStr "/r/a.12.exr"].
  split; [reflexivity|]. split; [discriminate|]. vm_compute. lia.
Defined.

(** ** The tail of a file *)

(** What [File.__init__] makes of the tail: that of the extractor, a dot
    and the extension when there is an extension, and the empty string
    when there is none. *)
Lemma File_init_tail (os_stat : string → option Stat) (cfg : Config.t)
    (filepath : string) (stats : stats_arg) (get_stats : option bool) :
  let file := (File.init os_stat cfg filepath stats get_stats).2 in
  File.tail file
  = if bool_decide (File.ext file = "") then ""
    else (extract_frame cfg (File._base file)).2 +:+ "." +:+ File.ext file.
Proof.
  unfold File.init.
  destruct (Py.os_path_split filepath) as [path name].
  destruct (split_extension name) as [base ext].
  assert (∀ c : Config.t,
            Config.frame_extract_re c = Config.frame_extract_re cfg →
            extract_frame c base = extract_frame cfg base) as Hsame.
  { intros c Hre. unfold extract_frame. by rewrite Hre. }
  destruct get_stats as [b|]; rewrite ?Hsame by done;
    destruct (extract_frame cfg base) as [[namehead framenum] tail] eqn:Hparts;
    simpl; by rewrite Hparts.
Qed.

(** C6.  The name [shot0001final] has no dot: its extension is empty, the
    extractor cuts it into [shot], [0001] and [final], and the tail of the
    [File] is the empty string, not [final].  Its key is then that of
    [shot0001other], and the two collide in one sequence. *)
Theorem File_tail_without_extension :
  File.ext shot0001final = ""
  ∧ extract_frame cfg (File._base shot0001final) = ("shot", "0001", "final")
  ∧ File.tail shot0001final = ""
  ∧ File.get_seq_key cfg shot0001final None = "/p/shot#"
  ∧ File.get_seq_key cfg (Sequence.as_file cfg (AsStr "/p/shot0001other")) None
    = "/p/shot#"
  ∧ (appends cfg Sequence.empty
       [AsStr "/p/shot0001final"; AsStr "/p/shot0001other"]).2
    = Raise IndexError_already_in_sequence
  ∧ File.tail (Sequence.as_file cfg (AsStr "/p/shot.0001.final.exr")) = ".final.exr".
Proof. repeat split; vm_compute; reflexivity. Qed.

(** ** The stat properties *)

(** A field that is true is returned as it is, and the disk is not read. *)
Lemma stat_property_truthy (os_stat : string → option Stat)
    (get ret : Stat → option pynum) (set : option pynum → Stat → Stat)
    (self : File.t) :
  truthy (get (stat_fields (File.stat self))) = true →
  File.stat_property os_stat get ret set self
  = Ok (get (stat_fields (File.stat self)), self).
Proof. intros Htrue. unfold File.stat_property. by rewrite Htrue. Qed.

(** C7.  A [File] given the stats [{'size': 0, 'uid': 0, 'mode': 33188}]
    stores the three values, the zeros as zeros.  [mode] is returned as
    given.  [size] takes its zero for a missing value: when the file does
    not exist it returns [None], and when it exists it returns the size on
    disk, which replaces the zero; so does [uid], which then returns the
    group id. *)
Theorem File_size_zero_is_looked_up :
  st_size (stat_fields (File.stat shot_size_0)) = Some (PyInt 0)
  ∧ st_uid (stat_fields (File.stat shot_size_0)) = Some (PyInt 0)
  ∧ st_ino (stat_fields (File.stat shot_size_0)) = None
  ∧ File.mode no_file shot_size_0 = Ok (Some (PyInt 33188), shot_size_0)
  ∧ File.size no_file shot_size_0 = Ok (None, shot_size_0)
  ∧ File.uid no_file shot_size_0 = Ok (None, shot_size_0)
  ∧ (∃ file, File.size on_disk shot_size_0 = Ok (Some (PyInt 7), file)
       ∧ st_size (stat_fields (File.stat file)) = Some (PyInt 7))
  ∧ (∃ file, File.uid on_disk shot_size_0 = Ok (None, file)
       ∧ st_uid (stat_fields (File.stat file)) = Some (PyInt 7)).
Proof.
  repeat split; try (vm_compute; reflexivity);
    eexists; split; vm_compute; reflexivity.
Qed.

(** * Further properties *)

(** ** Splitting and joining *)

Lemma app_String (c : ascii) (s1 s2 : string) :
  String c s1 +:+ s2 = String c (s1 +:+ s2).
Proof. reflexivity. Qed.

Lemma app_empty_l (s : string) : "" +:+ s = s.
Proof. reflexivity. Qed.

Lemma app_empty_r (s : string) : s +:+ "" = s.
Proof. induction s as [|c s IH]; [done|]. by rewrite app_String, IH. Qed.

Lemma string_app_assoc (s1 s2 s3 : string) :
  (s1 +:+ s2) +:+ s3 = s1 +:+ (s2 +:+ s3).
Proof. induction s1 as [|c s1 IH]; [done|]. by rewrite !app_String, IH. Qed.

Lemma split_cons (sep : ascii) (s : string) : ∃ w ws, Py.split sep s = w :: ws.
Proof.
  destruct s as [|c s]; simpl; [by eexists _, _|].
  destruct (Ascii.eqb c sep); [by eexists _, _|].
  destruct (Py.split sep s); by eexists _, _.
Qed.

Lemma join_cons_cons (sep w v : string) (ws : list string) :
  Py.join sep (w :: v :: ws) = w +:+ sep +:+ Py.join sep (v :: ws).
Proof. reflexivity. Qed.

Lemma join_split (sep : ascii) (s : string) :
  Py.join (String sep "") (Py.split sep s) = s.
Proof.
  induction s as [|c s IH]; [done|]. simpl.
  destruct (split_cons sep s) as (w & ws & Hsplit). rewrite Hsplit in IH |- *.
  destruct (Ascii.eqb_spec c sep) as [->|Hc].
  - rewrite join_cons_cons, IH. reflexivity.
  - destruct ws as [|v ws]; simpl in *; [by rewrite IH|].
    rewrite <- IH. reflexivity.
Qed.

Lemma join_snoc (sep : string) (ws : list string) (w : string) :
  ws ≠ [] → Py.join sep (ws ++ [w]) = Py.join sep ws +:+ sep +:+ w.
Proof.
  induction ws as [|v [|u ws] IH]; intros Hne; [done|done|].
  change ((v :: u :: ws) ++ [w]) with (v :: (u :: ws) ++ [w]).
  change ((u :: ws) ++ [w]) with (u :: ws ++ [w]) at 1.
  rewrite join_cons_cons. change (u :: ws ++ [w]) with ((u :: ws) ++ [w]).
  rewrite IH by done. rewrite join_cons_cons.
  by rewrite !string_app_assoc.
Qed.

Lemma split_no_sep (sep : ascii) (s : string) :
  Forall (λ w, has_char sep w = false) (Py.split sep s).
Proof.
  induction s as [|c s IH]; simpl; [by repeat constructor|].
  destruct (Ascii.eqb c sep) eqn:Hc; [by constructor|].
  destruct (Py.split sep s) as [|w ws]; [by repeat constructor; simpl; rewrite Hc|].
  inversion_clear IH as [|? ? Hw Hws]. constructor; [|done].
  simpl. by rewrite Hc, Hw.
Qed.

Lemma split_length (sep : ascii) (s : string) :
  has_char sep s = bool_decide (2 ≤ length (Py.split sep s))%nat.
Proof.
  induction s as [|c s IH]; [done|]. cbn [Py.split has_char].
  destruct (split_cons sep s) as (w & ws & Hsplit). rewrite Hsplit in IH |- *.
  destruct (Ascii.eqb c sep).
  - symmetry. apply bool_decide_eq_true_2. simpl. lia.
  - rewrite orb_false_l, IH. apply bool_decide_ext. simpl. lia.
Qed.

(** X1.  [split_extension] cuts a file name at its last dot: the extension
    has no dot, and the head, a dot and the extension give the name back.
    A name without a dot comes back whole, with an empty extension. *)
Theorem split_extension_last_dot (filename : string) :
  has_char "." (split_extension filename).2 = false
  ∧ (has_char "." filename = true →
       (split_extension filename).1 +:+ "." +:+ (split_extension filename).2
       = filename)
  ∧ (has_char "." filename = false → split_extension filename = (filename, "")).
Proof.
  pose proof (join_split "." filename) as Hjoin.
  pose proof (split_no_sep "." filename) as Hparts.
  rewrite (split_length "." filename).
  destruct (split_cons "." filename) as (w & ws & Hsplit).
  unfold split_extension.
  destruct (Py.split "." filename) as [|ext init _] using rev_ind; [done|].
  clear w ws Hsplit.
  apply Forall_app in Hparts as [_ Hext]. inversion_clear Hext as [|? ? Hdot _].
  destruct init as [|w ws].
  - (* a single part *)
    simpl in *. subst ext. by repeat split.
  - assert (2 ≤ length ((w :: ws) ++ [ext]))%nat as Hlen
      by (rewrite length_app; simpl; lia).
    replace (length ((w :: ws) ++ [ext]) <? 2)%nat with false
      by (symmetry; apply Nat.ltb_ge; lia).
    rewrite last_snoc, removelast_last. simpl fst. simpl snd.
    split; [done|]. split.
    + intros _. by rewrite <- Hjoin, join_snoc.
    + by rewrite bool_decide_eq_true_2.
Qed.

Lemma split_extension_last_dot_witness :
  has_char "." "shot.0010.exr" = true
  ∧ (split_extension "shot.0010.exr").1 +:+ "." +:+ (split_extension "shot.0010.exr").2
    = "shot.0010.exr"
  ∧ has_char "." "Makefile" = false
  ∧ split_extension "Makefile" = ("Makefile", "").
Proof.
  destruct (split_extension_last_dot "shot.0010.exr") as (_ & Hdot & _).
  destruct (split_extension_last_dot "Makefile") as (_ & _ & Hnone).
  split; [reflexivity|]. split; [apply Hdot; reflexivity|].
  split; [reflexivity|]. apply Hnone; reflexivity.
Defined.

(** ** The order of files *)








(** ** The frame numbers in order *)

Lemma StronglySorted_le_lt (l : list Z) :
  StronglySorted Z.le l → NoDup l → StronglySorted Z.lt l.
Proof.
  induction l as [|x l IH]; [constructor|].
  rewrite !StronglySorted_cons, NoDup_cons. intros [Hx Hl] [Hnotin Hnodup].
  split; [|by apply IH].
  rewrite Forall_forall in Hx |- *. intros y Hy.
  specialize (Hx y Hy). assert (x ≠ y) by (by intros ->). lia.
Qed.

Lemma NoDup_keys (self : Sequence.t) : NoDup (Sequence.keys self).
Proof. apply NoDup_fst_map_to_list. Qed.

Lemma length_keys (self : Sequence.t) :
  length (Sequence.keys self) = Sequence.frames self.
Proof.
  unfold Sequence.keys, Sequence.frames. by rewrite length_fmap, length_map_to_list.
Qed.

Lemma frame_numbers_facts (self : Sequence.t) :
  StronglySorted Z.lt (Sequence.frame_numbers self)
  ∧ (∀ k, k ∈ Sequence.frame_numbers self ↔ is_Some (Sequence._frames self !! k))
  ∧ length (Sequence.frame_numbers self) = Sequence.frames self.
Proof.
  unfold Sequence.frame_numbers.
  pose proof (merge_sort_Permutation Z.le (Sequence.keys self)) as Hperm.
  split; [|split].
  - apply StronglySorted_le_lt; [apply (StronglySorted_merge_sort Z.le)|].
    rewrite Hperm. apply NoDup_keys.
  - intros k. rewrite Hperm. apply elem_of_keys.
  - rewrite Hperm. apply length_keys.
Qed.

(** X3.  [frame_numbers] lists the keys of the frame map in strictly
    increasing order: a number is in the list exactly when it is a key, no
    number is repeated, and there are as many as [frames]. *)
Theorem frame_numbers_sorted_keys (self : Sequence.t) :
  StronglySorted Z.lt (Sequence.frame_numbers self)
  ∧ (∀ k, k ∈ Sequence.frame_numbers self ↔ is_Some (Sequence._frames self !! k))
  ∧ length (Sequence.frame_numbers self) = Sequence.frames self.
Proof. apply frame_numbers_facts. Qed.

(** ** Indexing a sequence *)

Lemma index_in_range {A} (l : list A) (i : Z) :
  - Z.of_nat (length l) ≤ i < Z.of_nat (length l) →
  ∃ x, Py.index l i = Some x
     ∧ l !! Z.to_nat (i `mod` Z.of_nat (length l)) = Some x.
Proof.
  intros Hi. unfold Py.index.
  destruct (Z.leb_spec 0 i).
  - rewrite Z.mod_small by lia.
    destruct (lookup_lt_is_Some_2 l (Z.to_nat i)) as [x Hx]; [lia|]. by exists x.
  - destruct (Z.leb_spec 0 (Z.of_nat (length l) + i)); [|lia].
    replace (i `mod` Z.of_nat (length l)) with (Z.of_nat (length l) + i).
    + destruct (lookup_lt_is_Some_2 l (Z.to_nat (Z.of_nat (length l) + i)))
        as [x Hx]; [lia|]. by exists x.
    + apply Z.mod_unique_pos with (q := -1); lia.
Qed.

Lemma index_out_of_range {A} (l : list A) (i : Z) :
  i < - Z.of_nat (length l) ∨ Z.of_nat (length l) ≤ i →
  Py.index l i = None.
Proof.
  intros Hi. unfold Py.index.
  destruct (Z.leb_spec 0 i).
  - apply lookup_ge_None. lia.
  - destruct (Z.leb_spec 0 (Z.of_nat (length l) + i)); [lia|done].
Qed.

Lemma frame_numbers_head_last (self : Sequence.t) (lo hi : Z) :
  Sequence.start self = Ok lo → Sequence.end_ self = Ok hi →
  Py.index (Sequence.frame_numbers self) 0 = Some lo
  ∧ Py.index (Sequence.frame_numbers self) (-1) = Some hi.
Proof.
  intros Hstart Hend.
  destruct (frame_numbers_facts self) as (Hsorted & Hin & Hlen).
  assert (Sequence.keys self ≠ []) as Hkeys.
  { intros Hnil. unfold Sequence.start in Hstart. by rewrite Hnil in Hstart. }
  destruct (py_min_spec _ Hkeys) as (lo' & Hmin & Hlo & Hleast).
  destruct (py_max_spec _ Hkeys) as (hi' & Hmax & Hhi & Hmost).
  unfold Sequence.start, Sequence.end_ in *.
  rewrite Hmin in Hstart. rewrite Hmax in Hend.
  injection Hstart as ->. injection Hend as ->.
  apply elem_of_keys, Hin in Hlo. apply elem_of_keys, Hin in Hhi.
  assert (∀ k, k ∈ Sequence.frame_numbers self → lo ≤ k ≤ hi) as Hbounds.
  { intros k Hk%Hin%elem_of_keys. split; [by apply Hleast | by apply Hmost]. }
  split.
  - unfold Py.index. simpl.
    destruct (Sequence.frame_numbers self) as [|k ks]; [by apply elem_of_nil in Hlo|].
    simpl. f_equal.
    apply StronglySorted_cons in Hsorted as [Hk _]. rewrite Forall_forall in Hk.
    apply elem_of_cons in Hlo as [->|Hlo]; [done|].
    specialize (Hk lo Hlo). specialize (Hbounds k (list_elem_of_here _ _)). lia.
  - unfold Py.index.
    destruct (Sequence.frame_numbers self) as [|k ks _] using rev_ind;
      [by apply elem_of_nil in Hhi|].
    rewrite length_app. simpl.
    replace (0 <=? -1) with false by done.
    replace (0 <=? Z.of_nat (length ks + 1) + -1) with true
      by (symmetry; apply Z.leb_le; lia).
    replace (Z.to_nat (Z.of_nat (length ks + 1) + -1)) with (length ks) by lia.
    rewrite list_lookup_middle by done. f_equal.
    apply StronglySorted_app in Hsorted as (Hall & _ & _).
    apply elem_of_app in Hhi as [Hhi|Hhi%list_elem_of_singleton]; [|done].
    specialize (Hall hi k Hhi (list_elem_of_here _ _)).
    assert (k ∈ ks ++ [k]) as Hk by (apply elem_of_app; right; constructor).
    specialize (Hbounds k Hk). lia.
Qed.

(** X4.  [seq[i]] is the file of the [i]-th frame number in increasing
    order, a negative [i] counting from the last: it is returned for every
    [i] from [-frames] to [frames - 1], and any other [i] is an
    [IndexError].  On a sequence with a frame, [seq[0]] is the file of
    [start] and [seq[-1]] the file of [end]. *)
Theorem getitem_by_rank (self : Sequence.t) :
  (∀ i : Z,
     - Z.of_nat (Sequence.frames self) ≤ i < Z.of_nat (Sequence.frames self) →
     ∃ (k : Z) (file : File.t),
       Sequence.getitem self i = Return file
       ∧ Sequence.frame_numbers self
           !! Z.to_nat (i `mod` Z.of_nat (Sequence.frames self)) = Some k
       ∧ Sequence._frames self !! k = Some file)
  ∧ (∀ i : Z,
       i < - Z.of_nat (Sequence.frames self) ∨ Z.of_nat (Sequence.frames self) ≤ i →
       Sequence.getitem self i = Throw IndexError_list_index)
  ∧ (Sequence._frames self ≠ ∅ →
       ∃ (lo hi : Z) (first last : File.t),
         Sequence.start self = Ok lo ∧ Sequence.end_ self = Ok hi
         ∧ Sequence._frames self !! lo = Some first
         ∧ Sequence._frames self !! hi = Some last
         ∧ Sequence.getitem self 0 = Return first
         ∧ Sequence.getitem self (-1) = Return last).
Proof.
  destruct (frame_numbers_facts self) as (Hsorted & Hin & Hlen).
  split; [|split].
  - intros i Hi. rewrite <- Hlen in Hi |- *.
    destruct (index_in_range _ i Hi) as (k & Hindex & Hlookup).
    assert (k ∈ Sequence.frame_numbers self) as [file Hfile]%Hin
      by (by eapply list_elem_of_lookup_2).
    exists k, file. unfold Sequence.getitem, Sequence.get_frame.
    by rewrite Hindex, Hfile.
  - intros i Hi. rewrite <- Hlen in Hi. unfold Sequence.getitem.
    by rewrite (index_out_of_range _ i Hi).
  - intros Hframes.
    assert (Sequence.keys self ≠ []) as Hkeys by (by rewrite keys_nil).
    destruct (py_min_spec _ Hkeys) as (lo & Hmin & [first Hlo]%elem_of_keys & _).
    destruct (py_max_spec _ Hkeys) as (hi & Hmax & [last Hhi]%elem_of_keys & _).
    destruct (frame_numbers_head_last self lo hi Hmin Hmax) as [Hhead Hlast].
    exists lo, hi, first, last.
    unfold Sequence.getitem, Sequence.get_frame.
    by rewrite Hhead, Hlast, Hlo, Hhi.
Qed.

Lemma getitem_by_rank_witness :
  ∃ first last : File.t,
    shot_10_20.1 ≠ Sequence.empty
    ∧ Sequence.getitem shot_10_20.1 0 = Return first
    ∧ File.frame first = Some 10
    ∧ Sequence.getitem shot_10_20.1 (-1) = Return last
    ∧ File.frame last = Some 20
    ∧ Sequence.getitem shot_10_20.1 5 = Throw IndexError_list_index.
Proof.
  destruct (getitem_by_rank shot_10_20.1) as (_ & Hout & Hends).
  assert (Sequence._frames shot_10_20.1 ≠ ∅) as Hframes.
  { apply map_size_non_empty_iff. vm_compute. discriminate. }
  destruct (Hends Hframes) as (lo & hi & first & last & Hs & He & Hlo & Hhi & H0 & H1).
  exists first, last. split; [by intros Heq; rewrite Heq in Hframes|].
  split; [exact H0|].
  assert (lo = 10) as -> by (vm_compute in Hs; by injection Hs).
  assert (hi = 20) as -> by (vm_compute in He; by injection He).
  split; [vm_compute in Hlo; injection Hlo as <-; vm_compute; reflexivity|].
  split; [exact H1|].
  split; [vm_compute in Hhi; injection Hhi as <-; vm_compute; reflexivity|].
  apply Hout. right. vm_compute. discriminate.
Defined.

(** ** Counting the missing frames *)

Lemma length_filter_complement {A} (P : A → Prop) `{!∀ x, Decision (P x)} (l : list A) :
  (length (filter P l) + length (filter (λ x, ¬ P x) l) = length l)%nat.
Proof. by rewrite <- length_app, filter_app_complement. Qed.

Lemma present_in_span (self : Sequence.t) (lo hi : Z) :
  (∀ k, is_Some (Sequence._frames self !! k) → lo ≤ k ≤ hi) →
  length (filter (λ k, is_Some (Sequence._frames self !! k)) (seqZ lo (hi + 1 - lo)))
  = Sequence.frames self.
Proof.
  intros Hspan. rewrite <- length_keys. apply Permutation_length.
  apply NoDup_Permutation.
  - apply NoDup_filter, NoDup_seqZ.
  - apply NoDup_keys.
  - intros k. rewrite list_elem_of_filter, elem_of_seqZ, elem_of_keys.
    split; [by intros [? _]|]. intros Hk. split; [done|].
    specialize (Hspan k Hk). lia.
Qed.

(** X5.  On a sequence with a frame the three views of the missing frames
    agree: [missing_frames] is the length of the list [get_missing_frames]
    returns, and [is_missing_frames] is true exactly when that list is not
    empty. *)
Theorem missing_frames_counts_the_list (self : Sequence.t) :
  Sequence._frames self ≠ ∅ →
  ∃ missing : list Z,
    Sequence.get_missing_frames self = Ok missing
    ∧ Sequence.missing_frames self = Ok (Z.of_nat (length missing))
    ∧ Sequence.is_missing_frames self = Ok (negb (bool_decide (missing = []))).
Proof.
  intros Hframes.
  assert (Sequence.keys self ≠ []) as Hkeys by (by rewrite keys_nil).
  destruct (py_min_spec _ Hkeys) as (lo & Hmin & Hlo & Hleast).
  destruct (py_max_spec _ Hkeys) as (hi & Hmax & Hhi & Hmost).
  assert (lo ≤ hi) as Hle by (by apply Hleast).
  assert (∀ k, is_Some (Sequence._frames self !! k) → lo ≤ k ≤ hi) as Hspan.
  { intros k Hk%elem_of_keys. split; [by apply Hleast | by apply Hmost]. }
  unfold Sequence.is_missing_frames, Sequence.implied_frames,
    Sequence.missing_frames, Sequence.get_missing_frames,
    Sequence.start, Sequence.end_.
  rewrite Hmin, Hmax. simpl.
  eexists. split; [done|].
  pose proof (length_filter_complement
                (λ k, is_Some (Sequence._frames self !! k))
                (seqZ lo (hi + 1 - lo))) as Hsum.
  rewrite (present_in_span self lo hi Hspan), length_seqZ in Hsum.
  assert (length (filter (λ frame, Sequence._frames self !! frame = None)
                    (seqZ lo (hi + 1 - lo)))
          = length (filter (λ k, ¬ is_Some (Sequence._frames self !! k))
                      (seqZ lo (hi + 1 - lo)))) as Hsame.
  { f_equal. apply list_filter_iff. intros k. by rewrite eq_None_not_Some. }
  split.
  - f_equal. lia.
  - f_equal. f_equal. apply bool_decide_ext. split.
    + intros Heq. apply length_zero_iff_nil. lia.
    + intros Hnil. rewrite Hnil in Hsame. simpl in Hsame. lia.
Qed.

Lemma missing_frames_counts_the_list_witness :
  Sequence._frames shot_10_20.1 ≠ ∅
  ∧ ∃ missing : list Z,
      Sequence.get_missing_frames shot_10_20.1 = Ok missing
      ∧ Sequence.missing_frames shot_10_20.1 = Ok (Z.of_nat (length missing))
      ∧ Sequence.is_missing_frames shot_10_20.1 = Ok (negb (bool_decide (missing = []))).
Proof.
  assert (Sequence._frames shot_10_20.1 ≠ ∅) as Hframes.
  { apply map_size_non_empty_iff. vm_compute. discriminate. }
  split; [exact Hframes|].
  exact (missing_frames_counts_the_list shot_10_20.1 Hframes).
Defined.

(** ** Frames by number *)





(** ** Templates *)

Lemma format_loop_plain (self : Sequence.t) (format : string) :
  has_char "%" format = false →
  ∀ new_string : string,
    Sequence.format_loop self format new_string false
    = Ok (new_string +:+ format).
Proof.
  induction format as [|c format IH]; simpl; intros Hplain new_string.
  - by rewrite app_empty_r.
  - apply orb_false_iff in Hplain as [Hc Hformat]. rewrite Hc.
    rewrite (IH Hformat). by rewrite string_app_assoc.
Qed.

Lemma frame_ranges_to_string_list_returns (frame_list : list Z) :
  ∃ out, (frame_ranges_to_string (PyList frame_list)).1 = Ok out.
Proof. destruct frame_list; by eexists. Qed.

Lemma directive_known_returns (self : Sequence.t) (char : ascii) :
  Sequence._frames self ≠ ∅ →
  char ∈ known_directives →
  ∃ part, Sequence.directive self char = Ok part.
Proof.
  intros Hframes Hchar.
  assert (Sequence.keys self ≠ []) as Hkeys by (by rewrite keys_nil).
  destruct (py_min_spec _ Hkeys) as (lo & Hmin & [first Hlo]%elem_of_keys & _).
  destruct (py_max_spec _ Hkeys) as (hi & Hmax & [last Hhi]%elem_of_keys & _).
  unfold known_directives in Hchar.
  repeat (apply elem_of_cons in Hchar as [->|Hchar]);
    [..|by apply elem_of_nil in Hchar];
    unfold Sequence.directive, Sequence.missing_frames,
      Sequence.get_missing_frames, Sequence.get_frame,
      Sequence.start, Sequence.end_;
    rewrite ?Hmin, ?Hmax; simpl; rewrite ?Hlo, ?Hhi; simpl;
    try (by eexists); apply frame_ranges_to_string_list_returns.
Qed.

Lemma directive_unknown_raises (self : Sequence.t) (char : ascii) :
  char ∉ known_directives →
  Sequence.directive self char = Raise (KeyError (String "%" (String char ""))).
Proof.
  intros Hchar.
  destruct char as [[] [] [] [] [] [] [] []];
    first [ reflexivity
          | exfalso; apply Hchar; unfold known_directives; repeat constructor ].
Qed.

Lemma format_loop_known_returns (self : Sequence.t) (format : string) :
  Sequence._frames self ≠ ∅ →
  ∀ (new_string : string) (matched : bool),
    Forall (λ char, char ∈ known_directives) (directives_from format matched) →
    ∃ out, Sequence.format_loop self format new_string matched = Ok out.
Proof.
  intros Hframes. induction format as [|c format IH];
    intros new_string matched Hknown; simpl in *; [by eexists|].
  destruct matched.
  - apply Forall_cons in Hknown as [Hc Hknown].
    destruct (directive_known_returns self c Hframes Hc) as [part ->]. simpl.
    by apply IH.
  - destruct (Ascii.eqb c "%"); by apply IH.
Qed.

Lemma format_loop_unknown_raises (self : Sequence.t) (format : string) :
  ∀ (new_string : string) (matched : bool) (char : ascii),
    char ∈ directives_from format matched →
    char ∉ known_directives →
    raises (Sequence.format_loop self format new_string matched).
Proof.
  induction format as [|c format IH];
    intros new_string matched char Hin Hchar; simpl in *.
  - by apply elem_of_nil in Hin.
  - destruct matched.
    + apply elem_of_cons in Hin as [->|Hin].
      * rewrite (directive_unknown_raises self c Hchar). by eexists.
      * destruct (Sequence.directive self c) as [part|e]; simpl; [|by eexists].
        by apply (IH _ false char).
    + destruct (Ascii.eqb c "%"); by eapply IH.
Qed.

(** X7.  [format] returns a template without a percent sign as it is.  On
    a sequence with a frame it returns a string for every template whose
    directives are all among the fourteen of the table.  A template with a
    directive that is not in the table raises, whatever the sequence. *)
Theorem format_by_directives (self : Sequence.t) (format : string) :
  (has_char "%" format = false → Sequence.format self format = Ok format)
  ∧ (Sequence._frames self ≠ ∅ →
     Forall (λ char, char ∈ known_directives) (directives format) →
     ∃ out, Sequence.format self format = Ok out)
  ∧ (∀ char : ascii,
       char ∈ directives format →
       char ∉ known_directives →
       raises (Sequence.format self format)).
Proof.
  split; [|split].
  - intros Hplain. unfold Sequence.format.
    by rewrite (format_loop_plain self format Hplain "").
  - intros Hframes Hknown. by apply format_loop_known_returns.
  - intros char Hin Hchar. by apply (format_loop_unknown_raises self format "" false char).
Qed.

Lemma format_by_directives_witness :
  Sequence.format shot_0010 "frames of the shot" = Ok "frames of the shot"
  ∧ (∃ out, Sequence.format shot_0010 "%H%r%T (%f frames, %m missing)" = Ok out)
  ∧ raises (Sequence.format shot_0010 "%h%x").
Proof.
  split; [|split].
  - apply (format_by_directives shot_0010 "frames of the shot"). reflexivity.
  - apply (format_by_directives shot_0010 "%H%r%T (%f frames, %m missing)").
    + apply map_size_non_empty_iff. vm_compute. discriminate.
    + vm_compute. repeat constructor.
  - apply (format_by_directives shot_0010 "%h%x") with (char := "x"%char).
    + vm_compute. repeat constructor.
    + unfold known_directives. intros Hin.
      repeat (apply elem_of_cons in Hin as [Hin|Hin]; [discriminate Hin|]).
      by apply elem_of_nil in Hin.
Defined.

(** ** What a run of appends keeps *)

Lemma append_keeps_names (cfg : Config.t) (self after : Sequence.t) (file : file_arg) :
  Sequence.frames self ≠ 0%nat →
  Sequence.append cfg self file = (after, Ok ()) →
  Sequence.seq_name after = Sequence.seq_name self
  ∧ Sequence.path after = Sequence.path self
  ∧ Sequence.namehead after = Sequence.namehead self
  ∧ Sequence.head after = Sequence.head self
  ∧ Sequence.tail after = Sequence.tail self
  ∧ Sequence.ext after = Sequence.ext self
  ∧ Sequence.frames after = S (Sequence.frames self).
Proof.
  intros Hframes Happend.
  destruct (append_returns _ _ _ _ Hframes Happend)
    as (frame & _ & Hnone & Hmap & _).
  assert (Sequence.frames after = S (Sequence.frames self)) as Hsize
    by (unfold Sequence.frames; rewrite Hmap; by apply map_size_insert_None).
  revert Happend. unfold Sequence.append.
  destruct (Sequence.not_a_member cfg self file); [done|].
  destruct (File.frame (Sequence.as_file cfg file)); [|done].
  rewrite (bool_decide_eq_false_2 _ Hframes).
  repeat case_bool_decide; try done; intros [= <-]; by repeat split.
Qed.

Lemma append_first_names (cfg : Config.t) (after : Sequence.t) (file : file_arg) :
  Sequence.append cfg Sequence.empty file = (after, Ok ()) →
  let first := Sequence.as_file cfg file in
  Sequence.seq_name after
  = File.get_seq_key cfg first (Some (Config.ignore_padding cfg))
  ∧ Sequence.path after = File.path first
  ∧ Sequence.namehead after = File.namehead first
  ∧ Sequence.head after = File.head first
  ∧ Sequence.tail after = File.tail first
  ∧ Sequence.ext after = File.ext first
  ∧ Sequence.frames after = 1%nat
  ∧ ∃ frame, File.frame first = Some frame
             ∧ Sequence._frames after = {[ frame := first ]}.
Proof.
  unfold Sequence.append.
  destruct (Sequence.not_a_member cfg Sequence.empty file); [done|].
  destruct (File.frame (Sequence.as_file cfg file)) as [frame|]; [|done].
  simpl. intros [= <-]. simpl. repeat (split; [done|]).
  split; [|by exists frame].
  unfold Sequence.frames. simpl. apply (map_size_singleton frame).
Qed.

Lemma appends_keep (cfg : Config.t) (files : list file_arg) :
  ∀ self after : Sequence.t,
    Sequence.frames self ≠ 0%nat →
    appends cfg self files = (after, Ok ()) →
    Sequence.seq_name after = Sequence.seq_name self
    ∧ Sequence.path after = Sequence.path self
    ∧ Sequence.namehead after = Sequence.namehead self
    ∧ Sequence.head after = Sequence.head self
    ∧ Sequence.tail after = Sequence.tail self
    ∧ Sequence.ext after = Sequence.ext self
    ∧ Sequence.frames after = (Sequence.frames self + length files)%nat
    ∧ ∀ k file,
        Sequence._frames after !! k = Some file →
        Sequence._frames self !! k = Some file
        ∨ (File.frame file = Some k
           ∧ ∃ arg, arg ∈ files ∧ Sequence.as_file cfg arg = file).
Proof.
  induction files as [|arg files IH]; intros self after Hframes; simpl.
  - intros [= <-]. repeat split; try done; try lia. by left.
  - destruct (Sequence.append cfg self arg) as [self' [[]|e]] eqn:Happend; [|done].
    intros Hrest.
    destruct (append_keeps_names _ _ _ _ Hframes Happend)
      as (H1 & H2 & H3 & H4 & H5 & H6 & Hsize).
    destruct (append_returns _ _ _ _ Hframes Happend)
      as (frame & Hframe & _ & Hmap & _).
    destruct (IH self' after) as (I1 & I2 & I3 & I4 & I5 & I6 & I7 & Hstored);
      [lia | done |].
    rewrite I1, I2, I3, I4, I5, I6, I7, H1, H2, H3, H4, H5, H6, Hsize.
    repeat (split; [done|]). split; [lia|].
    intros k file Hfile.
    destruct (Hstored k file Hfile) as [Hold|(Hk & arg' & Harg' & Has)].
    + rewrite Hmap in Hold. apply lookup_insert_Some in Hold as [[<- <-]|[_ Hold]].
      * right. split; [done|]. exists arg. split; [constructor | done].
      * by left.
    + right. split; [done|]. exists arg'. split; [by constructor | done].
Qed.

(** X8.  When every append of [files] to a new sequence returns, the
    sequence has as many frames as there are files, every stored file is
    one of them and is stored under its own frame number, and the key and
    the naming parts of the sequence are those of the first file: no later
    file changes them. *)
Theorem appends_keep_first_names (cfg : Config.t) (first : file_arg)
    (files : list file_arg) (after : Sequence.t) :
  appends cfg Sequence.empty (first :: files) = (after, Ok ()) →
  Sequence.frames after = length (first :: files)
  ∧ (∀ k file,
       Sequence._frames after !! k = Some file →
       File.frame file = Some k
       ∧ ∃ arg, arg ∈ first :: files ∧ Sequence.as_file cfg arg = file)
  ∧ Sequence.seq_name after
    = File.get_seq_key cfg (Sequence.as_file cfg first)
        (Some (Config.ignore_padding cfg))
  ∧ Sequence.path after = File.path (Sequence.as_file cfg first)
  ∧ Sequence.namehead after = File.namehead (Sequence.as_file cfg first)
  ∧ Sequence.head after = File.head (Sequence.as_file cfg first)
  ∧ Sequence.tail after = File.tail (Sequence.as_file cfg first)
  ∧ Sequence.ext after = File.ext (Sequence.as_file cfg first).
Proof.
  simpl.
  destruct (Sequence.append cfg Sequence.empty first) as [self [[]|e]] eqn:Hfirst;
    [|done].
  intros Hrest.
  destruct (append_first_names _ _ _ Hfirst)
    as (Hname & Hpath & Hnamehead & Hhead & Htail & Hext & Hone & frame & Hframe & Hmap).
  destruct (appends_keep cfg files self after) as
    (I1 & I2 & I3 & I4 & I5 & I6 & I7 & Hstored); [lia | done |].
  rewrite I1, I2, I3, I4, I5, I6, I7, Hone. split; [done|]. split; [|done].
  intros k file Hfile.
  destruct (Hstored k file Hfile) as [Hold|(Hk & arg & Harg & Has)].
  - rewrite Hmap in Hold. apply lookup_singleton_Some in Hold as [<- <-].
    split; [done|]. exists first. split; [constructor | done].
  - split; [done|]. exists arg. split; [by constructor | done].
Qed.

Lemma appends_keep_first_names_witness :
  let files := AsStr <$> ["/r/a.010.exr"; "/r/a.0011.exr"; "/r/a.12.exr"] in
  let after := (appends cfg Sequence.empty files).1 in
  appends cfg Sequence.empty files = (after, Ok ())
  ∧ Sequence.frames after = 3%nat
  ∧ Sequence.seq_name after = "/r/a.#.exr".
Proof.
  intros files after.
  assert (appends cfg Sequence.empty files = (after, Ok ())) as Hrun
    by (vm_compute; reflexivity).
  destruct (appends_keep_first_names cfg (AsStr "/r/a.010.exr")
              [AsStr "/r/a.0011.exr"; AsStr "/r/a.12.exr"] after Hrun)
    as (Hframes & _ & Hname & _).
  split; [exact Hrun|]. split; [exact Hframes|].
  rewrite Hname. vm_compute. reflexivity.
Defined.

(** ** Stat values read from disk *)

Lemma stat_property_cached (os_stat os_stat' : string → option Stat)
    (get : Stat → option pynum) (set : option pynum → Stat → Stat)
    (self after : File.t) (v : option pynum) :
  (∀ x s, get (set x s) = x) →
  File.stat_property os_stat get get set self = Ok (v, after) →
  truthy v = true →
  File.stat_property os_stat' get get set after = Ok (v, after).
Proof.
  intros Hget. unfold File.stat_property.
  destruct (truthy (get (stat_fields (File.stat self)))) eqn:Hheld; simpl.
  - intros [= <- <-] _. by rewrite Hheld.
  - destruct (os_stat (File.abspath self)) as [on_disk|].
    + destruct (File.stat self) as [r|s]; [done|].
      intros [= <- <-] Htrue. simpl. rewrite Hget in Htrue |- *. by rewrite Htrue.
    + by intros [= <- <-] [=].
Qed.

(** X9.  The stat properties look the disk up once: when [size], [inode],
    [nlink], [dev], [mode], [gid], [ctime], [mtime] or [atime] has returned
    a value that is true, reading it again returns the same value and
    leaves the file object as it is, whatever is on disk by then. *)
Theorem stat_property_read_again (os_stat os_stat' : string → option Stat)
    (self after : File.t) (v : option pynum) :
  truthy v = true →
  (File.size os_stat self = Ok (v, after) → File.size os_stat' after = Ok (v, after))
  ∧ (File.inode os_stat self = Ok (v, after) → File.inode os_stat' after = Ok (v, after))
  ∧ (File.nlink os_stat self = Ok (v, after) → File.nlink os_stat' after = Ok (v, after))
  ∧ (File.dev os_stat self = Ok (v, after) → File.dev os_stat' after = Ok (v, after))
  ∧ (File.mode os_stat self = Ok (v, after) → File.mode os_stat' after = Ok (v, after))
  ∧ (File.gid os_stat self = Ok (v, after) → File.gid os_stat' after = Ok (v, after))
  ∧ (File.ctime os_stat self = Ok (v, after) → File.ctime os_stat' after = Ok (v, after))
  ∧ (File.mtime os_stat self = Ok (v, after) → File.mtime os_stat' after = Ok (v, after))
  ∧ (File.atime os_stat self = Ok (v, after) → File.atime os_stat' after = Ok (v, after)).
Proof.
  intros Htrue.
  repeat split; intros Hread;
    by eapply stat_property_cached; [| exact Hread | exact Htrue].
Qed.

Lemma stat_property_read_again_witness :
  ∃ after : File.t,
    truthy (Some (PyInt 7)) = true
    ∧ File.size on_disk shot_size_0 = Ok (Some (PyInt 7), after)
    ∧ File.size no_file after = Ok (Some (PyInt 7), after).
Proof.
  eexists. split; [reflexivity|].
  assert (File.size on_disk shot_size_0
          = Ok (Some (PyInt 7),
                (File.set_stat shot_size_0
                   (StatObject (File.set_st_size (Some (PyInt 7))
                                  (stat_fields (File.stat shot_size_0)))))))
    as Hread by (vm_compute; reflexivity).
  split; [exact Hread|].
  assert (truthy (Some (PyInt 7)) = true) as Htrue by reflexivity.
  by apply (stat_property_read_again on_disk no_file shot_size_0 _ _ Htrue).
Defined.

(** ** The dict of sequences of a parser *)

Lemma assoc_get_Some {V} (key : string) (d : list (string * V)) (v : V) :
  assoc_get key d = Some v → (key, v) ∈ d.
Proof.
  induction d as [|[k x] d IH]; simpl; [done|].
  destruct (String.eqb_spec k key) as [->|Hk].
  - intros [= ->]. constructor.
  - intros Hget. constructor. by apply IH.
Qed.

Lemma assoc_get_None {V} (key : string) (d : list (string * V)) :
  assoc_get key d = None → key ∉ d.*1.
Proof.
  induction d as [|[k x] d IH]; simpl; [intros _; apply not_elem_of_nil|].
  destruct (String.eqb_spec k key) as [->|Hk]; [done|].
  intros Hget. apply not_elem_of_cons. split; [done | by apply IH].
Qed.

Lemma assoc_set_None {V} (key : string) (v : V) (d : list (string * V)) :
  assoc_get key d = None → assoc_set key v d = d ++ [(key, v)].
Proof.
  induction d as [|[k x] d IH]; simpl; [done|].
  destruct (String.eqb k key); [done|]. intros Hget. by rewrite IH.
Qed.

Lemma frames_of_cons (seq : Sequence.t) (seqs : list Sequence.t) :
  frames_of (seq :: seqs) = (Sequence.frames seq + frames_of seqs)%nat.
Proof. reflexivity. Qed.

Lemma frames_of_app (seqs1 seqs2 : list Sequence.t) :
  frames_of (seqs1 ++ seqs2) = (frames_of seqs1 + frames_of seqs2)%nat.
Proof. unfold frames_of. by rewrite fmap_app, sum_list_with_app. Qed.

Lemma assoc_set_Some (key : string) (seq old : Sequence.t)
    (d : list (string * Sequence.t)) :
  assoc_get key d = Some old →
  (assoc_set key seq d).*1 = d.*1
  ∧ (frames_of (assoc_set key seq d).*2 + Sequence.frames old
     = frames_of d.*2 + Sequence.frames seq)%nat
  ∧ ∀ k x, (k, x) ∈ assoc_set key seq d → (k = key ∧ x = seq) ∨ (k, x) ∈ d.
Proof.
  induction d as [|[k x] d IH]; [done|]. cbn [assoc_get assoc_set].
  destruct (String.eqb_spec k key) as [->|Hk].
  - intros [= ->]. rewrite !fmap_cons. cbn [fst snd]. rewrite !frames_of_cons.
    split; [done|]. split; [lia|].
    intros k x [[= -> ->]|Hin]%elem_of_cons; [by left|]. right. by constructor.
  - intros Hget. destruct (IH Hget) as (Hkeys & Hsum & Helem).
    rewrite !fmap_cons. cbn [fst snd]. rewrite !frames_of_cons.
    split; [by rewrite Hkeys|]. split; [lia|].
    intros k' x' [[= -> ->]|Hin]%elem_of_cons; [right; constructor|].
    destruct (Helem _ _ Hin) as [?|?]; [by left|]. right. by constructor.
Qed.

(** ** Sorting one file *)

Lemma append_File_raises (cfg : Config.t) (self after : Sequence.t)
    (file : File.t) (e : exception) :
  Sequence.frames self ≠ 0%nat →
  is_Some (File.frame file) →
  Sequence.append cfg self (AsFile file) = (after, Raise e) →
  e = IndexError_already_in_sequence ∧ after = self.
Proof.
  intros Hframes [frame Hframe]. unfold Sequence.append. simpl.
  rewrite Hframe, (bool_decide_eq_false_2 _ Hframes).
  repeat case_bool_decide; by intros [= <- <-].
Qed.

Lemma append_File_first (cfg : Config.t) (file : File.t) :
  is_Some (File.frame file) →
  ∃ after, Sequence.append cfg Sequence.empty (AsFile file) = (after, Ok ()).
Proof.
  intros [frame Hframe]. unfold Sequence.append. simpl. rewrite Hframe.
  by eexists.
Qed.

Lemma get_seq_key_default (cfg : Config.t) (file : File.t) :
  File.get_seq_key cfg file (Some (Config.ignore_padding cfg))
  = File.get_seq_key cfg file None.
Proof. reflexivity. Qed.

Lemma sort_file_step (cfg : Config.t) (self : Parser.t) (name : string)
    (stats : stats_arg) :
  let file := (File.init (λ _, None) cfg name stats None).2 in
  sorted_so_far cfg (Parser._sequences self) →
  ∃ after : Parser.t,
    Parser._sort_file cfg self name stats = (after, Return ())
    ∧ sorted_so_far cfg (Parser._sequences after)
    ∧ held after = S (held self)
    ∧ Parser.include_exts after = Parser.include_exts self
    ∧ Parser.exclude_exts after = Parser.exclude_exts self
    ∧ Parser.sequences after = Parser.sequences self
    ∧ Parser.single_frames after = Parser.single_frames self
    ∧ Parser.excluded after
      = Parser.excluded self
        ++ filter (λ f, Parser.is_excluded self f = true) [file]
    ∧ Parser.non_sequences after
      = Parser.non_sequences self
        ++ filter (λ f, Parser.is_excluded self f = false ∧ File.frame f = None)
             [file].
Proof.
  intros file [Hnodup Hseqs]. unfold Parser._sort_file. fold file.
  rewrite !filter_cons, !filter_nil.
  destruct (Parser.is_excluded self file) eqn:Hexcl.
  { rewrite decide_True by done. rewrite decide_False by (by intros [? _]).
    eexists. split; [done|]. split; [by split|]. rewrite app_nil_r.
    split; [|done]. unfold held. simpl. rewrite length_app. simpl. lia. }
  rewrite decide_False by done.
  destruct (File.frame file) as [frame|] eqn:Hframe.
  2: { rewrite decide_True by done.
       eexists. split; [done|]. split; [by split|]. rewrite app_nil_r.
       split; [|done]. unfold held. simpl. rewrite length_app. simpl. lia. }
  rewrite decide_False by (by intros [_ ?]). rewrite !app_nil_r.
  set (key := File.get_seq_key cfg file None).
  destruct (assoc_get key (Parser._sequences self)) as [seq|] eqn:Hget.
  - pose proof (assoc_get_Some _ _ _ Hget) as Hin.
    destruct (Hseqs key seq Hin) as (Hname & Hframes & Hone).
    destruct (Sequence.append cfg seq (AsFile file)) as [seq' [[]|e]] eqn:Happend.
    + destruct (append_returns _ _ _ _ Hframes Happend)
        as (frame' & Hframe' & _ & Hmap & Hname' & _).
      simpl in Hframe'. rewrite Hframe in Hframe'. injection Hframe' as <-.
      destruct (append_keeps_names _ _ _ _ Hframes Happend)
        as (_ & _ & _ & _ & _ & _ & Hsize).
      destruct (assoc_set_Some key seq' seq _ Hget) as (Hkeys & Hsum & Helem).
      eexists. split; [done|]. split; [|split; [|done]].
      * split; [simpl; by rewrite Hkeys|]. simpl.
        intros k x [[-> ->]|Hx]%Helem; [|by apply Hseqs].
        split; [by rewrite Hname'|]. split; [lia|].
        intros n f. rewrite Hmap, Hname'. simpl.
        intros [[<- <-]|[_ Hold]]%lookup_insert_Some; [by rewrite Hname|].
        by apply Hone.
      * unfold held. simpl. lia.
    + assert (is_Some (File.frame file)) as Hsome by (by rewrite Hframe).
      destruct (append_File_raises _ _ _ _ _ Hframes Hsome Happend) as [-> ->].
      destruct (assoc_set_Some key seq seq _ Hget) as (Hkeys & Hsum & Helem).
      eexists. split; [done|]. split; [|split; [|done]].
      * split; [simpl; by rewrite Hkeys|]. simpl.
        intros k x [[-> ->]|Hx]%Helem; by apply Hseqs.
      * unfold held. simpl. rewrite length_app. simpl. lia.
  - assert (is_Some (File.frame file)) as Hsome by (by rewrite Hframe).
    destruct (append_File_first cfg file Hsome) as [seq Happend].
    unfold Sequence.init. rewrite Happend.
    destruct (append_first_names _ _ _ Happend)
      as (Hname & _ & _ & _ & _ & _ & Hone & frame' & Hframe' & Hmap).
    simpl in Hname, Hframe', Hmap. rewrite Hframe in Hframe'.
    injection Hframe' as <-.
    rewrite (assoc_set_None _ _ _ Hget).
    eexists. split; [done|]. split; [|split; [|done]].
    + split; simpl.
      * rewrite fmap_app. apply NoDup_app. split; [done|]. split.
        -- intros k Hk [->|[]%elem_of_nil]%elem_of_cons.
           by apply (assoc_get_None _ _ Hget).
        -- apply NoDup_singleton.
      * intros k x [Hx|[[= -> ->]|[]%elem_of_nil]%elem_of_cons]%elem_of_app;
          [by apply Hseqs|].
        split; [by rewrite Hname, get_seq_key_default|]. split; [lia|].
        intros n f. rewrite Hmap.
        intros [<- <-]%lookup_singleton_Some.
        by rewrite Hname, get_seq_key_default.
    + unfold held. simpl. rewrite fmap_app, frames_of_app. simpl.
      rewrite frames_of_cons. unfold frames_of at 3. simpl. lia.
Qed.

(** ** Sorting a list of files *)

Lemma is_excluded_same_exts (self other : Parser.t) (file : File.t) :
  Parser.include_exts other = Parser.include_exts self →
  Parser.exclude_exts other = Parser.exclude_exts self →
  Parser.is_excluded other file = Parser.is_excluded self file.
Proof. unfold Parser.is_excluded. by intros -> ->. Qed.

Lemma sort_files_run (cfg : Config.t) (file_list : list (string * stats_arg)) :
  ∀ self : Parser.t,
    sorted_so_far cfg (Parser._sequences self) →
    ∃ after : Parser.t,
      Parser._sort_files cfg self file_list = (after, Return ())
      ∧ sorted_so_far cfg (Parser._sequences after)
      ∧ held after = (held self + length file_list)%nat
      ∧ Parser.include_exts after = Parser.include_exts self
      ∧ Parser.exclude_exts after = Parser.exclude_exts self
      ∧ Parser.sequences after = Parser.sequences self
      ∧ Parser.single_frames after = Parser.single_frames self
      ∧ Parser.excluded after
        = Parser.excluded self
          ++ filter (λ f, Parser.is_excluded self f = true)
               (file_of cfg <$> file_list)
      ∧ Parser.non_sequences after
        = Parser.non_sequences self
          ++ filter (λ f, Parser.is_excluded self f = false ∧ File.frame f = None)
               (file_of cfg <$> file_list).
Proof.
  induction file_list as [|item file_list IH]; intros self Hinv.
  - exists self. simpl. rewrite !filter_nil, !app_nil_r.
    split; [done|]. split; [done|]. split; [lia|]. done.
  - cbn [Parser._sort_files].
    assert ((if Config.get_stats cfg
             then Parser._sort_file cfg self item.1 item.2
             else Parser._sort_file cfg self item.1 StatsNone)
            = Parser._sort_file cfg self item.1
                (if Config.get_stats cfg then item.2 else StatsNone)) as ->
      by (by destruct (Config.get_stats cfg)).
    destruct (sort_file_step cfg self item.1
                (if Config.get_stats cfg then item.2 else StatsNone) Hinv)
      as (mid & -> & Hmid & Hheld & Hincl & Hexcl & Hseqs & Hsingle & Hex & Hnon).
    destruct (IH mid Hmid)
      as (after & -> & Hafter & Hheld' & Hincl' & Hexcl' & Hseqs' & Hsingle' & Hex' & Hnon').
    exists after. split; [done|]. split; [done|].
    split; [simpl; lia|].
    split; [by rewrite Hincl', Hincl|]. split; [by rewrite Hexcl', Hexcl|].
    split; [by rewrite Hseqs', Hseqs|]. split; [by rewrite Hsingle', Hsingle|].
    rewrite Hex', Hex, Hnon', Hnon, fmap_cons.
    rewrite (filter_cons _ (file_of cfg item)).
    rewrite (filter_cons (λ f, Parser.is_excluded self f = false ∧ _)
               (file_of cfg item)).
    rewrite !filter_cons, !filter_nil. fold (file_of cfg item).
    assert (∀ f, Parser.is_excluded mid f = Parser.is_excluded self f) as Hsame
      by (intros f; by apply is_excluded_same_exts).
    rewrite (list_filter_iff (λ f, Parser.is_excluded mid f = true)
               (λ f, Parser.is_excluded self f = true))
      by (intros f; by rewrite Hsame).
    rewrite (list_filter_iff
               (λ f, Parser.is_excluded mid f = false ∧ File.frame f = None)
               (λ f, Parser.is_excluded self f = false ∧ File.frame f = None))
      by (intros f; by rewrite Hsame).
    split.
    + destruct (decide (Parser.is_excluded self (file_of cfg item) = true));
        by rewrite <- app_assoc.
    + destruct (decide (Parser.is_excluded self (file_of cfg item) = false
                        ∧ File.frame (file_of cfg item) = None));
        by rewrite <- app_assoc.
Qed.

(** ** Cleaning up *)

Lemma getitem_first (seq : Sequence.t) :
  Sequence.frames seq ≠ 0%nat →
  ∃ (k : Z) (file : File.t),
    Sequence.getitem seq 0 = Return file
    ∧ Sequence._frames seq !! k = Some file.
Proof.
  intros Hframes.
  destruct (frame_numbers_facts seq) as (_ & Hin & Hlen).
  destruct (index_in_range (Sequence.frame_numbers seq) 0)
    as (k & Hindex & Hlookup); [lia|].
  assert (k ∈ Sequence.frame_numbers seq) as [file Hfile]%Hin
    by (by eapply list_elem_of_lookup_2).
  exists k, file. unfold Sequence.getitem, Sequence.get_frame.
  by rewrite Hindex, Hfile.
Qed.

Lemma cleanup_loop_run (items : list (string * Sequence.t)) :
  ∀ self : Parser.t,
    (∀ k seq, (k, seq) ∈ items → Sequence.frames seq ≠ 0%nat) →
    ∃ after : Parser.t,
      Parser._cleanup_loop self items = (after, Return ())
      ∧ Parser._sequences after
        = match items with [] => Parser._sequences self | _ => [] end
      ∧ Parser.sequences after
        = Parser.sequences self
          ++ filter (λ seq, Sequence.frames seq ≠ 1%nat) items.*2
      ∧ (length (Parser.single_frames after) + frames_of (Parser.sequences after)
         = length (Parser.single_frames self) + frames_of (Parser.sequences self)
           + frames_of items.*2)%nat
      ∧ Parser.excluded after = Parser.excluded self
      ∧ Parser.non_sequences after = Parser.non_sequences self
      ∧ Parser.collisions after = Parser.collisions self
      ∧ Parser.parsed after = Parser.parsed self
      ∧ ∀ file, file ∈ Parser.single_frames after →
          file ∈ Parser.single_frames self
          ∨ ∃ k seq n, (k, seq) ∈ items
                       ∧ Sequence._frames seq !! n = Some file.
Proof.
  induction items as [|[key seq] items IH]; intros self Hitems.
  - exists self. simpl. rewrite filter_nil, app_nil_r.
    repeat (split; [done || (unfold frames_of; simpl; lia)|]). by left.
  - cbn [Parser._cleanup_loop].
    assert (Sequence.frames seq ≠ 0%nat) as Hframes
      by (apply (Hitems key); constructor).
    assert (∀ k s, (k, s) ∈ items → Sequence.frames s ≠ 0%nat) as Hrest
      by (intros k s Hin; apply (Hitems k); by constructor).
    rewrite fmap_cons, filter_cons, frames_of_cons. cbn [snd].
    case_bool_decide as Hone.
    + destruct (getitem_first seq Hframes) as (n & file & -> & Hfile).
      destruct (IH (Parser.set_single_frames
                      (Parser.set__sequences self (reverse items))
                      (Parser.single_frames
                         (Parser.set__sequences self (reverse items)) ++ [file]))
                  Hrest)
        as (after & -> & Hd & Hseqs & Hsum & Hex & Hnon & Hcol & Hparsed & Hsingle).
      exists after. split; [done|]. simpl in *.
      rewrite decide_False by lia.
      split; [by destruct items|]. split; [done|].
      rewrite length_app in Hsum. simpl in Hsum.
      split; [lia|]. repeat (split; [done|]).
      intros f Hf. destruct (Hsingle f Hf) as [Hold|(k & s & m & Hin & Hm)].
      * apply elem_of_app in Hold as [Hold|Hnew%list_elem_of_singleton];
          [by left|]. subst f.
        right. exists key, seq, n. split; [constructor | done].
      * right. exists k, s, m. split; [by constructor | done].
    + destruct (IH (Parser.set_sequences
                      (Parser.set__sequences self (reverse items))
                      (Parser.sequences
                         (Parser.set__sequences self (reverse items)) ++ [seq]))
                  Hrest)
        as (after & -> & Hd & Hseqs & Hsum & Hex & Hnon & Hcol & Hparsed & Hsingle).
      exists after. split; [done|]. simpl in *.
      rewrite decide_True by done.
      split; [by destruct items|].
      split; [by rewrite Hseqs, <- app_assoc|].
      rewrite frames_of_app, frames_of_cons in Hsum.
      unfold frames_of at 3 in Hsum. simpl in Hsum.
      split; [lia|]. repeat (split; [done|]).
      intros f Hf. destruct (Hsingle f Hf) as [Hold|(k & s & m & Hin & Hm)];
        [by left|].
      right. exists k, s, m. split; [by constructor | done].
Qed.

(** ** A run of the parser *)

Lemma names_are_keys (d : list (string * Sequence.t)) :
  (∀ k seq, (k, seq) ∈ d → Sequence.seq_name seq = k) →
  Sequence.seq_name <$> d.*2 = d.*1.
Proof.
  induction d as [|[k seq] d IH]; intros Hd; [done|].
  rewrite !fmap_cons. cbn [fst snd]. f_equal.
  - apply Hd. constructor.
  - apply IH. intros k' seq' Hin. apply Hd. by constructor.
Qed.

Lemma NoDup_fmap_filter {A B} (f : A → B) (P : A → Prop)
    `{!∀ x, Decision (P x)} (l : list A) :
  NoDup (f <$> l) → NoDup (f <$> filter P l).
Proof.
  induction l as [|x l IH]; [done|].
  rewrite fmap_cons, NoDup_cons, filter_cons. intros [Hx Hl].
  destruct (decide (P x)); [|by apply IH].
  rewrite fmap_cons, NoDup_cons. split; [|by apply IH].
  intros (y & Hy & [_ Hin]%list_elem_of_filter)%list_elem_of_fmap.
  apply Hx, list_elem_of_fmap. by exists y.
Qed.

Lemma parse_file_list_run (cfg : Config.t) (self : Parser.t)
    (file_list : list (string * stats_arg)) :
  ∃ (d : list (string * Sequence.t)) (after : Parser.t),
    Parser.parse_file_list cfg self file_list = (after, Return ())
    ∧ sorted_so_far cfg d
    ∧ Parser.parsed after = true
    ∧ Parser._sequences after = []
    ∧ Parser.sequences after
      = filter (λ seq, Sequence.frames seq ≠ 1%nat) (reverse d).*2
    ∧ (length (Parser.single_frames after) + frames_of (Parser.sequences after)
       = frames_of d.*2)%nat
    ∧ (length (Parser.excluded after) + length (Parser.non_sequences after)
       + length (Parser.collisions after) + frames_of d.*2
       = length file_list)%nat
    ∧ Parser.excluded after
      = filter (λ f, Parser.is_excluded self f = true) (file_of cfg <$> file_list)
    ∧ Parser.non_sequences after
      = filter (λ f, Parser.is_excluded self f = false ∧ File.frame f = None)
          (file_of cfg <$> file_list)
    ∧ ∀ file, file ∈ Parser.single_frames after →
        ∃ k seq n, (k, seq) ∈ d ∧ Sequence._frames seq !! n = Some file.
Proof.
  unfold Parser.parse_file_list.
  assert (sorted_so_far cfg (Parser._sequences (Parser._reset self))) as Hinv.
  { split; simpl; [constructor|]. by intros k seq ?%elem_of_nil. }
  destruct (sort_files_run cfg file_list (Parser._reset self) Hinv)
    as (mid & -> & Hmid & Hheld & Hincl & Hexcl & Hseqs & Hsingle & Hex & Hnon).
  unfold Parser._cleanup.
  destruct (cleanup_loop_run (reverse (Parser._sequences mid)) mid)
    as (after & -> & Hd & Hseqs' & Hsum & Hex' & Hnon' & Hcol & Hparsed & Hsingle').
  { intros k seq Hin. rewrite elem_of_reverse in Hin.
    destruct Hmid as [_ Hall]. by apply (Hall k seq). }
  exists (Parser._sequences mid), (Parser.set_parsed after true).
  simpl in *.
  assert (frames_of (reverse (Parser._sequences mid)).*2
          = frames_of (Parser._sequences mid).*2) as Hrev.
  { unfold frames_of. by rewrite !fmap_reverse, sum_list_with_reverse. }
  rewrite Hseqs in Hseqs'. rewrite Hseqs, Hsingle, Hrev in Hsum.
  unfold held in Hheld. rewrite Hseqs, Hsingle in Hheld.
  assert (frames_of [] = 0%nat) as Hnil by reflexivity.
  rewrite ?Hnil in Hsum. rewrite ?Hnil in Hheld. simpl in Hheld, Hseqs', Hsum.
  split; [done|]. split; [done|]. split; [done|].
  split.
  { rewrite Hd. destruct (Parser._sequences mid) as [|item d _] using rev_ind;
      [done|]. by rewrite reverse_snoc. }
  split; [done|]. split; [lia|]. split; [rewrite Hex', Hnon', Hcol; lia|].
  split; [by rewrite Hex', Hex|]. split; [by rewrite Hnon', Hnon|].
  intros file Hfile.
  destruct (Hsingle' file Hfile) as [Hold|(k & seq & n & Hin & Hn)].
  - rewrite Hsingle in Hold. by apply elem_of_nil in Hold.
  - exists k, seq, n. rewrite elem_of_reverse in Hin. by split.
Qed.


(** X11.  After a run of the parser every sequence of [sequences] has at
    least two frames, all of its files have the key that names it and are
    stored under their own frame numbers, and no two sequences have the
    same name.  Every file of [single_frames] has a frame number. *)
Theorem parse_file_list_sequences (cfg : Config.t) (self after : Parser.t)
    (file_list : list (string * stats_arg)) :
  Parser.parse_file_list cfg self file_list = (after, Return ()) →
  (∀ seq, seq ∈ Parser.sequences after →
     (2 ≤ Sequence.frames seq)%nat ∧ one_key cfg seq)
  ∧ NoDup (Sequence.seq_name <$> Parser.sequences after)
  ∧ ∀ file, file ∈ Parser.single_frames after → is_Some (File.frame file).
Proof.
  destruct (parse_file_list_run cfg self file_list)
    as (d & after' & -> & [Hnodup Hd] & _ & _ & Hseqs & _ & _ & _ & _ & Hsingle).
  intros [= <-]. rewrite Hseqs. split; [|split].
  - intros seq [Hone Hin]%list_elem_of_filter.
    apply list_elem_of_fmap in Hin as ([k seq'] & -> & Hin).
    rewrite elem_of_reverse in Hin.
    destruct (Hd k seq' Hin) as (_ & Hzero & Hkey). simpl in *. split; [lia|done].
  - apply NoDup_fmap_filter. rewrite names_are_keys.
    + by rewrite fmap_reverse, reverse_Permutation.
    + intros k seq Hin. rewrite elem_of_reverse in Hin. by apply Hd.
  - intros file (k & seq & n & Hin & Hn)%Hsingle.
    destruct (Hd k seq Hin) as (_ & _ & Hkey).
    destruct (Hkey n file Hn) as [Hframe _]. by rewrite Hframe.
Qed.

(** X12.  A run of the parser puts in [excluded], in the order of the
    list, exactly the files whose lower-cased extension is outside a
    non-empty [include_exts] or inside [exclude_exts]; and in
    [non_sequences], in the order of the list, exactly the other files
    that have no frame number. *)
Theorem parse_file_list_filters (cfg : Config.t) (self after : Parser.t)
    (file_list : list (string * stats_arg)) :
  Parser.parse_file_list cfg self file_list = (after, Return ()) →
  Parser.excluded after
  = filter (λ f, Parser.is_excluded self f = true) (file_of cfg <$> file_list)
  ∧ Parser.non_sequences after
    = filter (λ f, Parser.is_excluded self f = false ∧ File.frame f = None)
        (file_of cfg <$> file_list).
Proof.
  destruct (parse_file_list_run cfg self file_list)
    as (d & after' & -> & _ & _ & _ & _ & _ & _ & Hex & Hnon & _).
  by intros [= <-].
Qed.

Lemma parse_file_list_sequences_witness :
  let after := (Parser.parse_file_list cfg no_tmp mixed_files).1 in
  Parser.parse_file_list cfg no_tmp mixed_files = (after, Return ())
  ∧ Sequence.seq_name <$> Parser.sequences after = ["/r/b.#.exr"; "/r/shot.#.exr"]
  ∧ File.abspath <$> Parser.single_frames after = ["/r/one.5.exr"]
  ∧ File.abspath <$> Parser.collisions after = ["/r/shot.2.exr"]
  ∧ (∀ seq, seq ∈ Parser.sequences after →
       (2 ≤ Sequence.frames seq)%nat ∧ one_key cfg seq)
  ∧ NoDup (Sequence.seq_name <$> Parser.sequences after).
Proof.
  intros after.
  assert (Parser.parse_file_list cfg no_tmp mixed_files = (after, Return ()))
    as Hrun by (vm_compute; reflexivity).
  destruct (parse_file_list_sequences cfg no_tmp after mixed_files Hrun)
    as (Hseqs & Hnodup & _).
  split; [exact Hrun|].
  split; [vm_compute; reflexivity|]. split; [vm_compute; reflexivity|].
  split; [vm_compute; reflexivity|]. split; [exact Hseqs | exact Hnodup].
Defined.

Lemma parse_file_list_filters_witness :
  let after := (Parser.parse_file_list cfg no_tmp mixed_files).1 in
  Parser.parse_file_list cfg no_tmp mixed_files = (after, Return ())
  ∧ File.abspath <$> Parser.excluded after = ["/r/render.0001.TMP"]
  ∧ File.abspath <$> Parser.non_sequences after = ["/r/notes.txt"]
  ∧ Parser.excluded after
    = filter (λ f, Parser.is_excluded no_tmp f = true) (file_of cfg <$> mixed_files).
Proof.
  intros after.
  assert (Parser.parse_file_list cfg no_tmp mixed_files = (after, Return ()))
    as Hrun by (vm_compute; reflexivity).
  destruct (parse_file_list_filters cfg no_tmp after mixed_files Hrun)
    as (Hexcluded & _).
  split; [exact Hrun|].
  split; [vm_compute; reflexivity|]. split; [vm_compute; reflexivity|].
  exact Hexcluded.
Defined.

(** ** Naming the stats of a line *)

(** X13.  [map_stats] raises when it is given a number of values other
    than the number of names; otherwise it returns a mapping whose keys are
    the names, and when no name is repeated each name maps to the value at
    its position. *)
Theorem map_stats_by_position {V} (stat_order : list string) (stats : list V) :
  (length stat_order ≠ length stats → map_stats stat_order stats = None)
  ∧ (length stat_order = length stats →
     ∃ m : gmap string V,
       map_stats stat_order stats = Some m
       ∧ (∀ k, is_Some (m !! k) ↔ k ∈ stat_order)
       ∧ (NoDup stat_order →
          ∀ (i : nat) (k : string) (v : V),
            stat_order !! i = Some k → stats !! i = Some v → m !! k = Some v)).
Proof.
  unfold map_stats. split.
  - intros Hlen. by rewrite bool_decide_eq_false_2.
  - intros Hlen. rewrite bool_decide_eq_true_2 by done. simpl.
    eexists. split; [done|].
    assert ((reverse (zip stat_order stats)).*1 ≡ₚ stat_order) as Hkeys.
    { rewrite fmap_reverse, reverse_Permutation, fst_zip by lia. done. }
    split.
    + intros k.
      assert (k ∈ (reverse (zip stat_order stats)).*1 ↔ k ∈ stat_order) as <-
        by (by rewrite Hkeys).
      rewrite <- not_eq_None_Some.
      pose proof (not_elem_of_list_to_map (M := gmap string)
                    (reverse (zip stat_order stats)) k) as Hnone.
      split.
      * intros Hsome.
        destruct (decide (k ∈ (reverse (zip stat_order stats)).*1)); [done|].
        by apply Hnone in n.
      * intros Hin Hnot. by apply Hnone in Hnot.
    + intros Hnodup i k v Hk Hv.
      apply elem_of_list_to_map_1; [by rewrite Hkeys|].
      rewrite elem_of_reverse. apply list_elem_of_lookup. exists i.
      rewrite lookup_zip_with, Hk, Hv. done.
Qed.

Lemma map_stats_by_position_witness :
  length ["size"; "inode"; "mtime"] = length [42; 7; 1500000000]
  ∧ map_stats ["size"; "inode"] [42] = None
  ∧ ∃ m : gmap string Z,
      map_stats ["size"; "inode"; "mtime"] [42; 7; 1500000000] = Some m
      ∧ m !! "inode" = Some 7.
Proof.
  destruct (map_stats_by_position ["size"; "inode"] [42]) as [Hraise _].
  destruct (map_stats_by_position ["size"; "inode"; "mtime"] [42; 7; 1500000000])
    as [_ Hmap].
  destruct (Hmap eq_refl) as (m & Hm & _ & Hlookup).
  split; [reflexivity|]. split; [apply Hraise; simpl; lia|].
  exists m. split; [exact Hm|].
  assert (NoDup ["size"; "inode"; "mtime"]) as Hnodup
    by (repeat (apply NoDup_cons; split;
                  [intros Hin; repeat (apply elem_of_cons in Hin as [Hin|Hin];
                                       [discriminate Hin|]);
                   by apply elem_of_nil in Hin|]); apply NoDup_nil_2).
  apply (Hlookup Hnodup 1%nat); reflexivity.
Defined.

(** ** Stats read when the file is made *)

Lemma File_init_abspath (os_stat : string → option Stat) (cfg : Config.t)
    (filepath : string) (stats : stats_arg) (get_stats : option bool) :
  File.abspath (File.init os_stat cfg filepath stats get_stats).2 = filepath.
Proof.
  unfold File.init.
  destruct (Py.os_path_split filepath), (split_extension _), (extract_frame _ _)
    as [[? ?] ?]. done.
Qed.

Lemma File_init_stat_on_disk (os_stat : string → option Stat) (cfg : Config.t)
    (filepath : string) (stats : stats_arg) (r : Stat) :
  os_stat filepath = Some r →
  File.stat (File.init os_stat cfg filepath stats (Some true)).2 = OsStatResult r.
Proof.
  intros Hdisk. unfold File.init.
  destruct (Py.os_path_split filepath), (split_extension _), (extract_frame _ _)
    as [[? ?] ?]. simpl. by rewrite Hdisk.
Qed.

(** X14.  A [File] made with [get_stats] true of a file that exists holds
    the [os.stat_result] of that file.  Its [size] is then the size on
    disk when that is not zero; for a file of size zero the property looks
    the file up again and, the file still being there, raises
    [AttributeError] on the assignment to the read-only record. *)
Theorem File_size_of_stat_result (os_stat : string → option Stat) (cfg : Config.t)
    (filepath : string) (stats : stats_arg) (r : Stat) :
  os_stat filepath = Some r →
  let file := (File.init os_stat cfg filepath stats (Some true)).2 in
  File.stat file = OsStatResult r
  ∧ (truthy (st_size r) = true →
     ∀ later : string → option Stat, File.size later file = Ok (st_size r, file))
  ∧ (truthy (st_size r) = false →
     File.size os_stat file = Raise AttributeError_readonly).
Proof.
  intros Hdisk file.
  pose proof (File_init_stat_on_disk os_stat cfg filepath stats r Hdisk) as Hstat.
  pose proof (File_init_abspath os_stat cfg filepath stats (Some true)) as Hpath.
  fold file in Hstat, Hpath.
  split; [done|]. unfold File.size, File.stat_property. rewrite Hstat, Hpath. simpl.
  split; intros ->; simpl; [done|]. by rewrite Hdisk.
Qed.

Lemma File_size_of_stat_result_witness :
  let empty_file : string → option Stat := λ _,
    Some (Stat_init (Some (PyInt 0)) (Some (PyInt 7)) None None None None None
            None None None) in
  let file := (File.init empty_file cfg "/r/shot.0010.exr" StatsNone (Some true)).2 in
  empty_file "/r/shot.0010.exr" <> None
  ∧ File.size empty_file file = Raise AttributeError_readonly
  ∧ (∀ later, File.inode later file = Ok (Some (PyInt 7), file)).
Proof.
  intros empty_file file.
  destruct (File_size_of_stat_result empty_file cfg "/r/shot.0010.exr" StatsNone
              _ eq_refl) as (_ & _ & Hzero).
  split; [discriminate|]. split; [apply Hzero; reflexivity|].
  intros later. reflexivity.
Defined.
